(** * OneTrust controls report service: collector and PDF renderer

    A shallow embedding of [app.py] (functions [fetch_controls],
    [identifier_key] and [generate_pdf]) together with the part of the
    Python runtime those functions rely on, followed by the properties
    of the embedding.

    Conventions of the embedding:
    - a value decoded from JSON is a [json]; a Python [dict] with string
      keys is a [gmap string json] (the program only ever looks keys up);
    - a Python [str] is a [string] whose characters are the code points
      below 256;
    - a Python [float] is an IEEE 754 binary64 number, [spec_float] at
      precision 53 and maximal exponent 1024;
    - a computation that may raise is a [result]; the exception classes
      are those the program can meet;
    - the canvas of the PDF library is the log of the calls made on it. *)

From Stdlib Require Import ZArith String Ascii List Bool Lia.
From Stdlib Require Import Permutation Sorted.
From Stdlib Require Import Floats.SpecFloat.
From Stdlib Require Import DecimalString DecimalPos.
From stdpp Require Import gmap strings.

Set Warnings "-register-all".
Local Open Scope Z_scope.

(** ** Exceptions and fallible computations *)

Inductive exn : Type :=
| AttributeError
| TypeError
| ValueError
| OverflowError
| KeyError
| IndexError
| JSONDecodeError
| HTTPError.

Inductive result (A : Type) : Type :=
| Return (a : A)
| Raise (e : exn).
Arguments Return {A} a.
Arguments Raise {A} e.

#[global] Instance result_ret : MRet result := fun A a => Return a.
#[global] Instance result_bind : MBind result := fun A B f m =>
  match m with
  | Return a => f a
  | Raise e => Raise e
  end.

(** [try: body except cls: handler] *)
Definition exn_eqb (a b : exn) : bool :=
  match a, b with
  | AttributeError, AttributeError | TypeError, TypeError
  | ValueError, ValueError | OverflowError, OverflowError
  | KeyError, KeyError | IndexError, IndexError
  | JSONDecodeError, JSONDecodeError
  | HTTPError, HTTPError => true
  | _, _ => false
  end.

Definition try_except {A} (body : result A) (cls : exn) (handler : result A)
  : result A :=
  match body with
  | Return a => Return a
  | Raise e => if exn_eqb e cls then handler else Raise e
  end.

Definition is_return {A} (r : result A) : bool :=
  match r with Return _ => true | Raise _ => false end.

(** ** Values decoded from JSON *)

Inductive json : Type :=
| JNull
| JBool (b : bool)
| JInt (z : Z)
| JFloat (f : spec_float)
| JStr (s : string)
| JArr (l : list json)
| JObj (m : gmap string json).

(** Binary64 arithmetic. *)
Definition prec : Z := 53.
Definition emax : Z := 1024.
Definition float_of_Z (z : Z) : spec_float := binary_normalize prec emax z 0 false.
Definition float_zero : spec_float := S754_zero false.
Definition float_add : spec_float -> spec_float -> spec_float := SFadd prec emax.
Definition float_div : spec_float -> spec_float -> spec_float := SFdiv prec emax.
Definition float_eqb : spec_float -> spec_float -> bool := SFeqb.

(** [bool(v)] *)
Definition truthy (v : json) : bool :=
  match v with
  | JNull => false
  | JBool b => b
  | JInt z => negb (z =? 0)
  | JFloat f => negb (float_eqb f float_zero)
  | JStr s => negb (String.eqb s "")
  | JArr l => match l with [] => false | _ :: _ => true end
  | JObj m => negb (Nat.eqb (size m) 0)
  end.

(** [a or b] *)
Definition py_or (a b : json) : json := if truthy a then a else b.

(** [d.get(k, default)]; only a dict has the method. *)
Definition dict_get (d : json) (k : string) (default : json) : result json :=
  match d with
  | JObj m => Return (from_option id default (m !! k))
  | _ => Raise AttributeError
  end.

(** [x[0]] *)
Definition first_item (x : json) : result json :=
  match x with
  | JArr (v :: _) => Return v
  | JArr [] => Raise IndexError
  | JStr (String c _) => Return (JStr (String c ""))
  | JStr "" => Raise IndexError
  | JObj _ => Raise KeyError
  | _ => Raise TypeError
  end.

(** [v in (None, "0", 0)]: identity or equality with one of the three. *)
Definition in_none_str0_0 (v : json) : bool :=
  match v with
  | JNull => true
  | JStr s => String.eqb s "0"
  | JInt z => z =? 0
  | JBool b => negb b
  | JFloat f => float_eqb f float_zero
  | JArr _ | JObj _ => false
  end.

(** ** Strings *)

(** [s.split(".")] *)
Fixpoint split_dot (s : string) : list string :=
  match s with
  | EmptyString => [""]
  | String c s' =>
      if Ascii.eqb c "." then "" :: split_dot s'
      else match split_dot s' with
           | h :: t => String c h :: t
           | [] => [String c ""]
           end
  end.

Definition str_split_dot (v : json) : result (list string) :=
  match v with
  | JStr s => Return (split_dot s)
  | _ => Raise AttributeError
  end.

(** White space as [int] and [float] see it before parsing. *)
Definition is_space (c : ascii) : bool :=
  let n := nat_of_ascii c in
  ((9 <=? n) && (n <=? 13) || Nat.eqb n 32
   || Nat.eqb n 133 || Nat.eqb n 160)%nat.

Fixpoint lstrip (s : string) : string :=
  match s with
  | String c s' => if is_space c then lstrip s' else s
  | EmptyString => EmptyString
  end.

Fixpoint rstrip (s : string) : string :=
  match s with
  | EmptyString => EmptyString
  | String c s' =>
      match rstrip s' with
      | EmptyString => if is_space c then EmptyString else String c EmptyString
      | r => String c r
      end
  end.

Definition strip (s : string) : string := rstrip (lstrip s).

Definition digit_of (c : ascii) : option Z :=
  let n := nat_of_ascii c in
  if ((48 <=? n) && (n <=? 57))%nat then Some (Z.of_nat n - 48) else None.

(** [digit (["_"] digit)*] once a first digit has been read: the value
    so far, the number of digits read, and what is left of the input. *)
Fixpoint digits_tail (acc : Z) (n : nat) (s : string) : Z * nat * string :=
  match s with
  | EmptyString => (acc, n, s)
  | String c s' =>
      match digit_of c with
      | Some d => digits_tail (10 * acc + d) (S n) s'
      | None =>
          if Ascii.eqb c "_" then
            match s' with
            | String c2 s'' =>
                match digit_of c2 with
                | Some d => digits_tail (10 * acc + d) (S n) s''
                | None => (acc, n, s)
                end
            | EmptyString => (acc, n, s)
            end
          else (acc, n, s)
      end
  end.

Definition digitpart (s : string) : option (Z * nat * string) :=
  match s with
  | String c s' =>
      match digit_of c with
      | Some d => Some (digits_tail d 1 s')
      | None => None
      end
  | EmptyString => None
  end.

Definition read_sign (s : string) : bool * string :=
  match s with
  | String c s' =>
      if Ascii.eqb c "-" then (true, s')
      else if Ascii.eqb c "+" then (false, s')
      else (false, s)
  | EmptyString => (false, s)
  end.

(** The greatest number of digits [int] converts,
    [sys.get_int_max_str_digits()], at the default of CPython 3.11.
    Every digit counts, a leading zero too; the sign, the underscores
    and the white space around the numeral do not. *)
Definition int_max_str_digits : nat := 4300.

(** [int(s)] for a string [s]; a numeral of more digits than the limit
    is refused like a string that is no numeral. *)
Definition int_of_str (s : string) : result Z :=
  let '(neg, t) := read_sign (strip s) in
  match digitpart t with
  | Some (v, n, EmptyString) =>
      if (n <=? int_max_str_digits)%nat then Return (if neg then - v else v)
      else Raise ValueError
  | _ => Raise ValueError
  end.

(** ** Floating-point conversions *)

Definition lower (c : ascii) : ascii :=
  let n := nat_of_ascii c in
  if ((65 <=? n) && (n <=? 90))%nat then ascii_of_nat (n + 32) else c.

Fixpoint lower_str (s : string) : string :=
  match s with
  | EmptyString => EmptyString
  | String c s' => String (lower c) (lower_str s')
  end.

(** [number ::= [digitpart] "." digitpart | digitpart ["."]]: the digits
    read as one integer, how many of them follow the point, and the rest
    of the input. *)
Definition read_number (s : string) : option (Z * nat * string) :=
  match s with
  | String "." s' =>
      match digitpart s' with
      | Some (v, n, rest) => Some (v, n, rest)
      | None => None
      end
  | _ =>
      match digitpart s with
      | Some (v, _, String "." s') =>
          match digitpart s' with
          | Some (v2, n2, rest) => Some (v * 10 ^ Z.of_nat n2 + v2, n2, rest)
          | None => Some (v, 0%nat, s')
          end
      | Some (v, _, rest) => Some (v, 0%nat, rest)
      | None => None
      end
  end.

(** [[exponent]] up to the end of the input, with
    [exponent ::= ("e" | "E") [sign] digitpart]. *)
Definition read_exponent (s : string) : option Z :=
  match s with
  | EmptyString => Some 0
  | String c s' =>
      if Ascii.eqb (lower c) "e" then
        let '(neg, t) := read_sign s' in
        match digitpart t with
        | Some (v, _, EmptyString) => Some (if neg then - v else v)
        | _ => None
        end
      else None
  end.

(** The binary64 number nearest to [m * 10 ^ e], ties to even. *)
Definition decimal_to_float (neg : bool) (m e : Z) : spec_float :=
  match m with
  | Zpos p =>
      if 0 <=? e then
        binary_normalize prec emax (if neg then - (m * 10 ^ e) else m * 10 ^ e) 0 false
      else
        float_div (S754_finite neg p 0)
                  (S754_finite false (Z.to_pos (10 ^ (- e))) 0)
  | _ => S754_zero neg
  end.

(** [float(s)] for a string [s] *)
Definition float_of_str (s : string) : result spec_float :=
  let '(neg, t) := read_sign (strip s) in
  let low := lower_str t in
  if String.eqb low "inf" || String.eqb low "infinity" then
    Return (S754_infinity neg)
  else if String.eqb low "nan" then Return S754_nan
  else
    match read_number t with
    | Some (m, fd, rest) =>
        match read_exponent rest with
        | Some ex => Return (decimal_to_float neg m (ex - Z.of_nat fd))
        | None => Raise ValueError
        end
    | None => Raise ValueError
    end.

(** [float(v)] *)
Definition py_float (v : json) : result spec_float :=
  match v with
  | JStr s => float_of_str s
  | JInt z =>
      match float_of_Z z with
      | S754_infinity _ => Raise OverflowError
      | f => Return f
      end
  | JBool b => Return (float_of_Z (if b then 1 else 0))
  | JFloat f => Return f
  | JNull | JArr _ | JObj _ => Raise TypeError
  end.

Definition str_of_Z (z : Z) : string := NilZero.string_of_int (Z.to_int z).

(** The integer nearest to [n / 2 ^ k], ties to even. *)
Definition round_half_even_shift (n : Z) (k : Z) : Z :=
  let d := 2 ^ k in
  let q := n / d in
  let r := n mod d in
  match 2 * r ?= d with
  | Lt => q
  | Gt => q + 1
  | Eq => if Z.even q then q else q + 1
  end.

Definition two_digits (n : Z) : string :=
  if n <? 10 then "0" +:+ str_of_Z n else str_of_Z n.

(** [f"{x:.2f}"] *)
Definition format_2f (x : spec_float) : string :=
  match x with
  | S754_nan => "nan"
  | S754_infinity s => if s then "-inf" else "inf"
  | S754_zero s => if s then "-0.00" else "0.00"
  | S754_finite s m e =>
      let n := if 0 <=? e then 100 * Zpos m * 2 ^ e
               else round_half_even_shift (100 * Zpos m) (- e) in
      (if s then "-" else "") +:+ str_of_Z (n / 100) +:+ "." +:+ two_digits (n mod 100)
  end.

(** [sum(values)]: the additions are made from left to right, from 0. *)
Definition py_sum (values : list spec_float) : spec_float :=
  fold_left float_add values float_zero.

(** ** Ordering of lists of integers, and [list.sort(key=...)] *)

(** [a < b] on lists of integers: the first differing place decides, and
    a proper prefix is smaller. *)
Fixpoint list_ltb (a b : list Z) : bool :=
  match a, b with
  | [], [] => false
  | [], _ :: _ => true
  | _ :: _, [] => false
  | x :: a', y :: b' => if x =? y then list_ltb a' b' else x <? y
  end.

(** [a < b] on strings, by code point. *)
Fixpoint str_ltb (a b : string) : bool :=
  match a, b with
  | EmptyString, EmptyString => false
  | EmptyString, String _ _ => true
  | String _ _, EmptyString => false
  | String x a', String y b' =>
      if Ascii.eqb x y then str_ltb a' b'
      else (nat_of_ascii x <? nat_of_ascii y)%nat
  end.

Section StableSort.
Context {K A : Type}.
Variable ltb : K -> K -> bool.

(** [x] is placed before the first element whose key is not smaller
    than its own. *)
Fixpoint insert_keyed (x : K * A) (l : list (K * A)) : list (K * A) :=
  match l with
  | [] => [x]
  | y :: l' => if ltb (fst y) (fst x) then y :: insert_keyed x l' else x :: l
  end.

(** [list.sort] is stable; the elements enter from the last to the
    first, each before the elements of equal key already placed. *)
Fixpoint sort_keyed (l : list (K * A)) : list (K * A) :=
  match l with
  | [] => []
  | x :: l' => insert_keyed x (sort_keyed l')
  end.

(** [x] may stand before [y]: the key of [y] is not smaller. *)
Definition not_after (x y : K * A) : Prop := ltb (fst y) (fst x) = false.
End StableSort.

(** ** The renderer: data access *)

Definition empty_dict : json := JObj ∅.

(** [(d.get(k) or {})] *)
Definition get_or_empty (d : json) (k : string) : result json :=
  v ← dict_get d k JNull;
  mret (py_or v empty_dict).

(** [identifier_key(item)] *)
Definition identifier_key (item : json) : result (list Z) :=
  control ← get_or_empty item "control";
  identifier ← dict_get control "identifier" (JStr "");
  parts ← str_split_dot identifier;
  mapM (fun part => try_except (int_of_str part) ValueError (Return 0)) parts.

(** [controls.sort(key=identifier_key)]: every key is computed before an
    element moves, so a key that raises leaves the list as it was. *)
Definition sort_controls (controls : list json) : result (list json) :=
  keys ← mapM identifier_key controls;
  mret (map snd (sort_keyed list_ltb (zip keys controls))).

(** The loop of lines 107 to 116. *)
Fixpoint company_name (controls : list json) : result json :=
  match controls with
  | [] => Return (JStr "Unknown Company")
  | item :: rest =>
      control ← get_or_empty item "control";
      org ← dict_get control "orgGroupName" JNull;
      if truthy org then Return org
      else
        primary ← get_or_empty item "primaryEntity";
        name ← dict_get primary "name" JNull;
        if truthy name then Return name
        else company_name rest
  end.

Definition formula_key : string := "AttributeFormulaValue.value1_2".

(** Lines 120 to 122, and again 152 to 154: the formula value of a record. *)
Definition formula_value (item : json) : result json :=
  attrs ← get_or_empty item "attributes";
  f ← dict_get attrs formula_key JNull;
  let formula := py_or f (JArr []) in
  if truthy formula then
    first ← first_item formula;
    dict_get first "value" JNull
  else Return JNull.

(** The loop of lines 119 to 127, with [values] as built so far. *)
Fixpoint collect_values (controls : list json) (values : list spec_float)
  : result (list spec_float) :=
  match controls with
  | [] => Return values
  | item :: rest =>
      val ← formula_value item;
      values' ← (if negb (in_none_str0_0 val) then
                   try_except (x ← py_float val; mret (values ++ [x]))
                              ValueError (Return values)
                 else Return values);
      collect_values rest values'
  end.

(** [sum(values) / len(values) if values else None] *)
Definition average (values : list spec_float) : option spec_float :=
  match values with
  | [] => None
  | _ :: _ => Some (float_div (py_sum values) (float_of_Z (Z.of_nat (length values))))
  end.

Definition avg_text (avg : option spec_float) : string :=
  match avg with
  | Some a => "Average Score of Applicable Controls: " +:+ format_2f a
  | None => "Average Score of Applicable Controls: N/A"
  end.

(** ** The renderer: canvas and layout *)

(** The calls the renderer makes on the canvas, in the order made. *)
Inductive canvas_op : Type :=
| SetFont (psfontname : string) (size : Z)
| DrawString (x y : Z) (text : string)
| ShowPage
| Save.

(** Modelled from the spec: the page size constant [LETTER] of the PDF
    library, "standard letter dimensions", 612 by 792 points. *)
Definition LETTER : Z * Z := (612, 792).

Definition width : Z := fst LETTER.
Definition height : Z := snd LETTER.
Definition x_margin : Z := 40.
Definition y_margin : Z := 40.
Definition line_height : Z := 14.

(** The canvas [c] and the cursor [y] that [draw_wrapped] shares with
    the body of [generate_pdf]. *)
Record layout : Type := Layout { canv : list canvas_op; ypos : Z }.

Definition emit (ops : list canvas_op) (st : layout) : layout :=
  {| canv := canv st ++ ops; ypos := ypos st |}.

Definition set_y (y : Z) (st : layout) : layout :=
  {| canv := canv st; ypos := y |}.

(** One turn of the loop of [draw_wrapped], lines 98 to 103. *)
Definition draw_line (st : layout) (line : string) : layout :=
  let st1 :=
    if ypos st <=? y_margin then
      set_y (height - y_margin) (emit [ShowPage; SetFont "Helvetica" 10] st)
    else st in
  let st2 := emit [DrawString x_margin (ypos st1) line] st1 in
  set_y (ypos st2 - line_height) st2.

(** ["-" * 90] *)
Definition separator_rule : string := string_of_list_ascii (repeat "-"%char 90).

Section Renderer.
(** [repr] of a float, a list or a dict, and [textwrap.wrap]: library
    functions on which no property below depends. *)
Variable py_repr : json -> string.
Variable textwrap_wrap : string -> Z -> list string.

(** [str(v)], as an f-string interpolates a value *)
Definition py_str (v : json) : string :=
  match v with
  | JNull => "None"
  | JBool b => if b then "True" else "False"
  | JInt z => str_of_Z z
  | JStr s => s
  | JFloat _ | JArr _ | JObj _ => py_repr v
  end.

(** The text a field is printed as: "N/A" when the dict lacks it. *)
Definition field_text (d : gmap string json) (k : string) : string :=
  from_option py_str "N/A" (d !! k).

Definition draw_wrapped (text : string) (st : layout) : layout :=
  fold_left draw_line (textwrap_wrap text 100) st.

(** The six logical lines of a record, lines 147 to 164. *)
Definition block_lines (item : json) : result (list string) :=
  control ← get_or_empty item "control";
  identifier ← dict_get control "identifier" (JStr "N/A");
  name ← dict_get control "name" (JStr "N/A");
  description ← dict_get control "description" (JStr "N/A");
  raw_value ← formula_value item;
  let value := if negb (in_none_str0_0 raw_value) then raw_value else JStr "N/A" in
  info ← get_or_empty item "effectivenessInfo";
  effectiveness ← dict_get info "name" (JStr "N/A");
  mret [ "Identifier    : " +:+ py_str identifier;
         "Name          : " +:+ py_str name;
         "Description   : " +:+ py_str description;
         "Value         : " +:+ py_str value;
         "Effectiveness : " +:+ py_str effectiveness;
         separator_rule ].

(** The loop of lines 146 to 164. *)
Fixpoint draw_body (controls : list json) (st : layout) : result layout :=
  match controls with
  | [] => Return st
  | item :: rest =>
      lines ← block_lines item;
      draw_body rest (fold_left (fun s text => draw_wrapped text s) lines st)
  end.

Definition title_text (company : json) : string :=
  "OneTrust Controls Summary - " +:+ py_str company.

(** Lines 131 to 144: title and summary line. *)
Definition draw_header (company : json) (avg : option spec_float) : layout :=
  let st := {| canv := []; ypos := height - y_margin |} in
  let st := emit [SetFont "Helvetica-Bold" 14;
                  DrawString x_margin (ypos st) (title_text company)] st in
  let st := set_y (ypos st - 20) st in
  let st := emit [SetFont "Helvetica-Bold" 12;
                  DrawString x_margin (ypos st) (avg_text avg)] st in
  let st := set_y (ypos st - 30) st in
  emit [SetFont "Helvetica" 10] st.

(** What [generate_pdf] makes of the sorted list. *)
Definition render_sorted (sorted : list json) : result (list canvas_op) :=
  company ← company_name sorted;
  values ← collect_values sorted [];
  st ← draw_body sorted (draw_header company (average values));
  mret (canv st ++ [Save]).

(** [generate_pdf(controls)]: the list [controls] as the call leaves
    it, and the document returned or the exception raised. *)
Definition generate_pdf (controls : list json)
  : list json * result (list canvas_op) :=
  match sort_controls controls with
  | Raise e => (controls, Raise e)
  | Return sorted => (sorted, render_sorted sorted)
  end.
End Renderer.

(** ** The collector *)

Record request : Type :=
  Request { req_page : Z; req_size : Z; req_org_id : string }.

Record response : Type :=
  Response { status_code : Z; body : option json }.

(** [response.raise_for_status()] *)
Definition raise_for_status (r : response) : result unit :=
  if (400 <=? status_code r) && (status_code r <? 600) then Raise HTTPError
  else Return tt.

(** [response.json()] *)
Definition response_json (r : response) : result json :=
  match body r with
  | Some data => Return data
  | None => Raise JSONDecodeError
  end.

(** The elements [list.extend(x)] appends.  A dict yields its keys, in
    an order the map does not record; nothing below depends on it. *)
Definition py_iter (x : json) : result (list json) :=
  match x with
  | JArr l => Return l
  | JStr s => Return (map (fun ch => JStr (String ch "")) (list_ascii_of_string s))
  | JObj m => Return (map (fun kv => JStr (fst kv)) (map_to_list m))
  | _ => Raise TypeError
  end.

(** [page >= total_pages] for an integer [page] *)
Definition int_ge (page : Z) (total_pages : json) : result bool :=
  match total_pages with
  | JInt t => Return (t <=? page)
  | JBool b => Return ((if b then 1 else 0) <=? page)
  | JFloat S754_nan => Return false
  | JFloat (S754_infinity s) => Return s
  | JFloat (S754_zero _) => Return (0 <=? page)
  | JFloat (S754_finite s m e) =>
      let v := if s then Zneg m else Zpos m in
      Return (if 0 <=? e then v * 2 ^ e <=? page else v <=? page * 2 ^ (- e))
  | _ => Raise TypeError
  end.

Section Collector.
(** The answer of [requests.post] to a request: a response, or the
    exception of a failed connection. *)
Variable post : request -> result response.

(** One turn of the loop of lines 38 to 65: the list extended, and
    whether the loop breaks. *)
Definition fetch_page (org_id : string) (page : Z) (controls : list json)
  : result (list json * bool) :=
  response ← post {| req_page := page; req_size := 50; req_org_id := org_id |};
  _ ← raise_for_status response;
  data ← response_json response;
  content ← dict_get data "content" (JArr []);
  items ← py_iter content;
  total_pages ← dict_get data "totalPages" (JInt 1);
  stop ← int_ge (page + 1) total_pages;
  mret (controls ++ items, stop).

(** The loop, run for at most [fuel] turns: the pages requested, and
    how the call ends; [None] when the turns do not suffice. *)
Fixpoint fetch_loop (fuel : nat) (org_id : string) (page : Z)
    (controls : list json) (sent : list Z)
  : option (list Z * result (list json)) :=
  match fuel with
  | O => None
  | S fuel' =>
      match fetch_page org_id page controls with
      | Raise e => Some (sent ++ [page], Raise e)
      | Return (controls', true) => Some (sent ++ [page], Return controls')
      | Return (controls', false) =>
          fetch_loop fuel' org_id (page + 1) controls' (sent ++ [page])
      end
  end.

Definition fetch_controls (fuel : nat) (org_id : string)
  : option (list Z * result (list json)) :=
  fetch_loop fuel org_id 0 [] [].
End Collector.

(** [download_report(org_id)]: the document handed to [send_file], if
    the collection ends within [fuel] turns. *)
Definition download_report (py_repr : json -> string)
    (textwrap_wrap : string -> Z -> list string)
    (post : request -> result response) (fuel : nat) (org_id : string)
  : option (result (list canvas_op)) :=
  match fetch_controls post fuel org_id with
  | None => None
  | Some (_, Raise e) => Some (Raise e)
  | Some (_, Return controls) =>
      Some (snd (generate_pdf py_repr textwrap_wrap controls))
  end.

(** ** Vocabulary of the properties *)

(** The integer a segment of an identifier stands for. *)
Definition segment_value (part : string) : Z :=
  match int_of_str part with
  | Return n => n
  | Raise _ => 0
  end.

Definition key_of_identifier (s : string) : list Z :=
  map segment_value (split_dot s).

(** [(item.get("control") or {}).get("identifier", "")] *)
Definition record_identifier (item : json) : result json :=
  control ← get_or_empty item "control";
  dict_get control "identifier" (JStr "").

(** The key of [a] is not greater than the key of [b]. *)
Definition key_le (a b : json) : Prop :=
  exists ka kb, identifier_key a = Return ka /\ identifier_key b = Return kb
                /\ list_ltb kb ka = false.

(** A decorated element carries its own key. *)
Definition keyed (p : list Z * json) : Prop :=
  identifier_key (snd p) = Return (fst p).

(** [(item.get("control") or {}).get("orgGroupName")] *)
Definition org_hint (item : json) : result json :=
  control ← get_or_empty item "control";
  dict_get control "orgGroupName" JNull.

(** [(item.get("primaryEntity") or {}).get("name")] *)
Definition primary_hint (item : json) : result json :=
  primary ← get_or_empty item "primaryEntity";
  dict_get primary "name" JNull.

(** The record carries neither hint. *)
Definition no_hint (item : json) : Prop :=
  exists o p, org_hint item = Return o /\ truthy o = false
              /\ primary_hint item = Return p /\ truthy p = false.

(** The hint the record carries: its [orgGroupName] if not empty, else
    its [primaryEntity.name] if not empty. *)
Definition has_hint (item v : json) : Prop :=
  (org_hint item = Return v /\ truthy v = true)
  \/ (exists o, org_hint item = Return o /\ truthy o = false
                /\ primary_hint item = Return v /\ truthy v = true).

(** The first non-empty value of a hint over the whole list. *)
Fixpoint first_nonempty (hint : json -> result json) (controls : list json)
  : result (option json) :=
  match controls with
  | [] => Return None
  | item :: rest =>
      v ← hint item;
      if truthy v then Return (Some v) else first_nonempty hint rest
  end.

(** The resolution of the company name in the words of the
    specification: the first non-empty [orgGroupName]; if no record has
    one, the first non-empty [primaryEntity.name]; else the placeholder. *)
Definition company_name_two_pass (controls : list json) : result json :=
  o ← first_nonempty org_hint controls;
  match o with
  | Some v => Return v
  | None =>
      p ← first_nonempty primary_hint controls;
      match p with
      | Some v => Return v
      | None => Return (JStr "Unknown Company")
      end
  end.

(** The number a formula value adds to the aggregation, if any. *)
Definition included_score (v : json) : option spec_float :=
  if in_none_str0_0 v then None
  else match py_float v with
       | Return x => Some x
       | Raise _ => None
       end.

(** A formula value that is [None], a boolean, a string or a number
    that a float can hold. *)
Definition scalar_score (v : json) : bool :=
  match v with
  | JArr _ | JObj _ => false
  | JInt z => match float_of_Z z with S754_infinity _ => false | _ => true end
  | JNull | JBool _ | JFloat _ | JStr _ => true
  end.

(** A record of the expected shape: [control], [primaryEntity],
    [attributes] and [effectivenessInfo] are dicts, [null] or absent, the
    identifier is a string or absent, the formula entry is a list of
    dicts, [null] or absent, and the formula value is a scalar. *)
Definition well_formed (item : json) : Prop :=
  (exists control s,
      get_or_empty item "control" = Return (JObj control)
      /\ from_option id (JStr "") (control !! "identifier") = JStr s)
  /\ (exists primary, get_or_empty item "primaryEntity" = Return (JObj primary))
  /\ (exists info, get_or_empty item "effectivenessInfo" = Return (JObj info))
  /\ (exists v, formula_value item = Return v /\ scalar_score v = true).

(** The server answers the request for [page] with a success status
    and a body holding [items] and the total [total]. *)
Definition serves (post : request -> result response) (org_id : string)
    (page : Z) (items : list json) (total : Z) : Prop :=
  exists code data,
    post {| req_page := page; req_size := 50; req_org_id := org_id |}
    = Return {| status_code := code; body := Some (JObj data) |}
    /\ (code < 400 \/ 600 <= code)
    /\ data !! "content" = Some (JArr items)
    /\ data !! "totalPages" = Some (JInt total).

(** The server answers the request for [page] with an error status. *)
Definition fails (post : request -> result response) (org_id : string)
    (page : Z) : Prop :=
  exists code data,
    post {| req_page := page; req_size := 50; req_org_id := org_id |}
    = Return {| status_code := code; body := data |}
    /\ 400 <= code < 600.

(** The turn of the loop for [page] ends without exception and without
    break: the collector goes on to the next page. *)
Definition goes_on (post : request -> result response) (org_id : string)
    (page : Z) : Prop :=
  exists items, forall controls,
    fetch_page post org_id page controls = Return (controls ++ items, false).

(** The turn of the loop for [page] raises [e]: the connection fails
    with [e], or the body of a successful answer is no JSON, or its
    [totalPages] is [null]. *)
Definition turn_raises (post : request -> result response) (org_id : string)
    (page : Z) (e : exn) : Prop :=
  let req := {| req_page := page; req_size := 50; req_org_id := org_id |} in
  post req = Raise e
  \/ (exists code,
        (code < 400 \/ 600 <= code)
        /\ post req = Return {| status_code := code; body := None |}
        /\ e = JSONDecodeError)
  \/ (exists code data,
        (code < 400 \/ 600 <= code)
        /\ post req = Return {| status_code := code; body := Some (JObj data) |}
        /\ (data !! "content" = None \/ exists l, data !! "content" = Some (JArr l))
        /\ data !! "totalPages" = Some JNull
        /\ e = TypeError).

(** The pages [0], ..., [n - 1]. *)
Definition pages (n : nat) : list Z := map Z.of_nat (seq 0 n).

(** The number of digits of the decimal numeral of [z]. *)
Definition numeral_digits (z : Z) : nat := String.length (str_of_Z (Z.abs z)).

(** The order of keys in the words of the specification, "missing
    segments compare as 0": the shorter key is filled up with zeros. *)
Definition zero_padded (n : nat) (k : list Z) : list Z :=
  k ++ repeat 0 (n - length k).

Definition list_ltb_padded (a b : list Z) : bool :=
  let n := Nat.max (length a) (length b) in
  list_ltb (zero_padded n a) (zero_padded n b).

(** A numeral of 4301 digits. *)
Definition long_numeral : string := string_of_list_ascii (repeat "1"%char 4301).

(** The number of dots of a string. *)
Fixpoint count_dots (s : string) : nat :=
  match s with
  | EmptyString => 0
  | String c s' => if Ascii.eqb c "." then S (count_dots s') else count_dots s'
  end.

(** The numbers [ns] written in decimal and joined by dots. *)
Fixpoint dotted (ns : list N) : string :=
  match ns with
  | [] => ""
  | [n] => str_of_Z (Z.of_N n)
  | n :: rest => str_of_Z (Z.of_N n) +:+ String "." (dotted rest)
  end.

(** The texts drawn on the canvas, in the order drawn. *)
Fixpoint drawn_text (ops : list canvas_op) : list string :=
  match ops with
  | [] => []
  | DrawString _ _ text :: ops' => text :: drawn_text ops'
  | _ :: ops' => drawn_text ops'
  end.

(** A text is drawn strictly above the bottom margin. *)
Definition above_margin (op : canvas_op) : Prop :=
  match op with
  | DrawString _ y _ => y_margin < y
  | _ => True
  end.

(** A text is drawn at the left margin, above the bottom margin and not
    above the top margin. *)
Definition inside_margins (op : canvas_op) : Prop :=
  match op with
  | DrawString x y _ => x = x_margin /\ y_margin < y <= height - y_margin
  | _ => True
  end.

(** The number of page breaks made on a canvas. *)
Fixpoint show_pages (ops : list canvas_op) : Z :=
  match ops with
  | [] => 0
  | ShowPage :: ops' => 1 + show_pages ops'
  | _ :: ops' => show_pages ops'
  end.

(** The number of texts drawn on a canvas. *)
Definition texts_drawn (ops : list canvas_op) : Z :=
  Z.of_nat (length (drawn_text ops)).

(** For the examples: [textwrap.wrap] on texts that fit on one line, and
    a [repr] for values that hold no float, list or dict. *)
Definition one_line (text : string) (width : Z) : list string := [text].
Definition no_repr (v : json) : string := "".

(** Records for the examples. *)
Definition obj (fields : list (string * json)) : json := JObj (list_to_map fields).

Definition record_with_identifier (s : string) : json :=
  obj [("control", obj [("identifier", JStr s)])].

Definition record_with_score (v : json) : json :=
  obj [("attributes", obj [(formula_key, JArr [obj [("value", v)]])])].

Definition five_scores : list json :=
  map record_with_score [JInt 0; JStr "0"; JNull; JStr "5"; JStr "15"].

(** A server of three pages, each holding one record. *)
Definition three_pages (r : request) : result response :=
  Return {| status_code := 200;
            body := Some (obj [("content", JArr [JInt (req_page r)]);
                               ("totalPages", JInt 3)]) |}.

(** The same server, out of order from the third page on. *)
Definition fails_on_third (r : request) : result response :=
  if req_page r <? 2 then three_pages r
  else Return {| status_code := 503; body := None |}.

(** A server that always announces one page more. *)
Definition ever_more (r : request) : result response :=
  Return {| status_code := 200;
            body := Some (obj [("content", JArr []);
                               ("totalPages", JInt (req_page r + 2))]) |}.

(** A server of two pages: the record "2" on the first, "1" on the second. *)
Definition two_pages (r : request) : result response :=
  Return {| status_code := 200;
            body := Some (obj [("content",
                                JArr [record_with_identifier
                                        (if req_page r =? 0 then "2" else "1")]);
                               ("totalPages", JInt 2)]) |}.

(** A server whose answer holds neither [content] nor [totalPages]. *)
Definition bare_answer (r : request) : result response :=
  Return {| status_code := 200; body := Some (obj []) |}.

(** A server whose second answer is no JSON. *)
Definition garbled_on_second (r : request) : result response :=
  if req_page r =? 0 then two_pages r
  else Return {| status_code := 200; body := None |}.

(** The server of two pages, its second answer under the status [code]. *)
Definition second_status (code : Z) (r : request) : result response :=
  if req_page r =? 0 then two_pages r
  else Return {| status_code := code;
                 body := Some (obj [("content", JArr [record_with_identifier "1"]);
                                    ("totalPages", JInt 2)]) |}.

Definition nine_records : list json :=
  map record_with_identifier ["1"; "2"; "3"; "4"; "5"; "6"; "7"; "8"; "9"].

Definition nine_records_pdf : list json * result (list canvas_op) :=
  Eval vm_compute in generate_pdf no_repr one_line nine_records.

Definition document (r : list json * result (list canvas_op)) : list canvas_op :=
  match snd r with
  | Return doc => doc
  | Raise _ => []
  end.

Definition acme_then_globex : list json :=
  [ obj [("control", obj [("identifier", JStr "1")]);
         ("primaryEntity", obj [("name", JStr "Acme Corp")])];
    obj [("control", obj [("identifier", JStr "2");
                          ("orgGroupName", JStr "Globex")])] ].

(** * Properties *)

(** ** Stable sorting by key *)

Section StableSortFacts.
Context {K A : Type}.
Variable ltb : K -> K -> bool.

Hypothesis ltb_asym : forall a b, ltb a b = true -> ltb b a = false.
Hypothesis ltb_le_trans :
  forall a b c, ltb b a = false -> ltb c b = false -> ltb c a = false.

Lemma insert_keyed_perm (x : K * A) (l : list (K * A)) :
  Permutation (insert_keyed ltb x l) (x :: l).
Proof.
  induction l as [|y l IH]; simpl; [reflexivity|].
  destruct (ltb (fst y) (fst x)); [|reflexivity].
  rewrite IH. apply perm_swap.
Qed.

Lemma sort_keyed_perm (l : list (K * A)) : Permutation (sort_keyed ltb l) l.
Proof.
  induction l as [|x l IH]; simpl; [reflexivity|].
  rewrite insert_keyed_perm. now apply perm_skip.
Qed.

Lemma insert_keyed_sorted (x : K * A) (l : list (K * A)) :
  StronglySorted (not_after ltb) l ->
  StronglySorted (not_after ltb) (insert_keyed ltb x l).
Proof using ltb_asym ltb_le_trans.
  induction l as [|y l IH]; simpl; intros Hs.
  - constructor; [constructor | constructor].
  - inversion Hs as [|? ? Hl Hy]; subst.
    destruct (ltb (fst y) (fst x)) eqn:E.
    + constructor; [now apply IH|].
      rewrite insert_keyed_perm. constructor; [|exact Hy].
      unfold not_after. now apply ltb_asym.
    + constructor; [exact Hs|].
      constructor; [exact E|].
      eapply Forall_impl; [exact Hy|].
      intros z Hz. unfold not_after in *. eapply ltb_le_trans; eassumption.
Qed.

Lemma sort_keyed_sorted (l : list (K * A)) :
  StronglySorted (not_after ltb) (sort_keyed ltb l).
Proof using ltb_asym ltb_le_trans.
  induction l as [|x l IH]; simpl; [constructor|].
  now apply insert_keyed_sorted.
Qed.

(** Stability: elements no two of which are ordered by their keys keep
    their places relative to one another. *)
Lemma insert_keyed_filter (Q : K * A -> Prop) `{!forall p, Decision (Q p)}
    (x : K * A) (l : list (K * A)) :
  (forall a b, Q a -> Q b -> ltb (fst a) (fst b) = false) ->
  filter Q (insert_keyed ltb x l) = filter Q (x :: l).
Proof.
  intros HQ. induction l as [|y l IH]; [reflexivity|].
  cbn [insert_keyed]. destruct (ltb (fst y) (fst x)) eqn:E; [|reflexivity].
  rewrite filter_cons, IH, !filter_cons.
  destruct (decide (Q y)) as [Qy|Qy], (decide (Q x)) as [Qx|Qx];
    try reflexivity.
  rewrite (HQ _ _ Qy Qx) in E. discriminate.
Qed.

Lemma sort_keyed_filter (Q : K * A -> Prop) `{!forall p, Decision (Q p)}
    (l : list (K * A)) :
  (forall a b, Q a -> Q b -> ltb (fst a) (fst b) = false) ->
  filter Q (sort_keyed ltb l) = filter Q l.
Proof.
  intros HQ. induction l as [|x l IH]; [reflexivity|].
  cbn [sort_keyed]. rewrite insert_keyed_filter by exact HQ.
  rewrite !filter_cons, IH. reflexivity.
Qed.

(** A list already in order is left as it is. *)
Lemma sort_keyed_sorted_id (l : list (K * A)) :
  StronglySorted (not_after ltb) l -> sort_keyed ltb l = l.
Proof.
  induction 1 as [|x l Hs IH Hx]; [reflexivity|].
  cbn [sort_keyed]. rewrite IH. destruct Hx as [|y l Hy _]; [reflexivity|].
  cbn [insert_keyed]. unfold not_after in Hy. now rewrite Hy.
Qed.

Lemma sort_keyed_idem (l : list (K * A)) : sort_keyed ltb (sort_keyed ltb l) = sort_keyed ltb l.
Proof using ltb_asym ltb_le_trans.
  apply sort_keyed_sorted_id, sort_keyed_sorted.
Qed.

(** The stable arrangement is unique: whichever stable sorting procedure
    [list.sort] runs, its result is that of [sort_keyed]. *)
Context `{EqDecision K}.
Hypothesis ltb_antisym : forall a b, ltb a b = false -> ltb b a = false -> a = b.

Lemma stable_sorted_unique (l1 l2 : list (K * A)) :
  StronglySorted (not_after ltb) l1 ->
  StronglySorted (not_after ltb) l2 ->
  (forall k, filter (fun p => fst p = k) l1 = filter (fun p => fst p = k) l2) ->
  l1 = l2.
Proof using ltb_antisym.
  revert l2. induction l1 as [|x l1 IH]; intros [|y l2] S1 S2 HF.
  - reflexivity.
  - specialize (HF (fst y)). rewrite filter_cons, decide_True in HF by reflexivity.
    discriminate.
  - specialize (HF (fst x)). rewrite filter_cons, decide_True in HF by reflexivity.
    discriminate.
  - inversion S1 as [|? ? S1' Hx]; inversion S2 as [|? ? S2' Hy]; subst.
    assert (Hk : fst x = fst y).
    { assert (Hxin : x ∈ y :: l2).
      { eapply (list_elem_of_filter (fun p => fst p = fst x)).
        rewrite <- HF, filter_cons, decide_True by reflexivity. left. }
      assert (Hyin : y ∈ x :: l1).
      { eapply (list_elem_of_filter (fun p => fst p = fst y)).
        rewrite HF, filter_cons, decide_True by reflexivity. left. }
      apply elem_of_cons in Hxin as [->|Hxin]; [reflexivity|].
      apply elem_of_cons in Hyin as [->|Hyin]; [reflexivity|].
      rewrite Forall_forall in Hx, Hy.
      apply ltb_antisym; [apply (Hy _ Hxin)|apply (Hx _ Hyin)]. }
    assert (Hhd : x = y).
    { specialize (HF (fst x)).
      rewrite !filter_cons, decide_True in HF by reflexivity.
      rewrite decide_True in HF by (symmetry; exact Hk). congruence. }
    subst y. f_equal. apply IH; [assumption..|].
    intros k. specialize (HF k). rewrite !filter_cons in HF.
    destruct (decide (fst x = k)); congruence.
Qed.

Lemma sort_keyed_unique (l l' : list (K * A)) :
  StronglySorted (not_after ltb) l' ->
  (forall k, filter (fun p => fst p = k) l' = filter (fun p => fst p = k) l) ->
  l' = sort_keyed ltb l.
Proof using ltb_asym ltb_le_trans ltb_antisym.
  intros Hs HF. apply stable_sorted_unique; [exact Hs|apply sort_keyed_sorted|].
  intros k. rewrite HF. symmetry. apply sort_keyed_filter.
  intros a b Ha Hb. rewrite Ha, Hb.
  destruct (ltb k k) eqn:E; [|reflexivity].
  now rewrite (ltb_asym _ _ E) in E.
Qed.
End StableSortFacts.

(** ** The order on keys *)

Lemma list_ltb_irrefl (a : list Z) : list_ltb a a = false.
Proof.
  induction a as [|x a IH]; [reflexivity|].
  simpl. now rewrite Z.eqb_refl.
Qed.

Lemma list_ltb_asym (a b : list Z) : list_ltb a b = true -> list_ltb b a = false.
Proof.
  revert b. induction a as [|x a IH]; intros [|y b]; simpl; try easy.
  destruct (Z.eqb_spec x y) as [->|Hxy].
  - rewrite Z.eqb_refl. apply IH.
  - destruct (Z.eqb_spec y x) as [->|_]; [contradiction|].
    rewrite !Z.ltb_lt, Z.ltb_ge. lia.
Qed.

Lemma list_ltb_le_trans (a b c : list Z) :
  list_ltb b a = false -> list_ltb c b = false -> list_ltb c a = false.
Proof.
  revert b c. induction a as [|x a IH]; intros [|y b] [|z c]; simpl; try easy.
  destruct (Z.eqb_spec y x) as [Hyx|Hyx], (Z.eqb_spec z y) as [Hzy|Hzy]; subst.
  - rewrite Z.eqb_refl. apply IH.
  - destruct (Z.eqb_spec z x); [contradiction|]. easy.
  - destruct (Z.eqb_spec y x); [contradiction|]. easy.
  - rewrite !Z.ltb_ge. intros H1 H2.
    destruct (Z.eqb_spec z x) as [->|_]; [lia|]. rewrite Z.ltb_ge. lia.
Qed.

(** Keys neither of which is smaller are the same key. *)
Lemma list_ltb_antisym (a b : list Z) :
  list_ltb a b = false -> list_ltb b a = false -> a = b.
Proof.
  revert b. induction a as [|x a IH]; intros [|y b]; simpl; try easy.
  destruct (Z.eqb_spec x y) as [->|Hxy].
  - rewrite Z.eqb_refl. intros H1 H2. f_equal. now apply IH.
  - destruct (Z.eqb_spec y x) as [->|_]; [contradiction|].
    rewrite !Z.ltb_ge. lia.
Qed.

(** ** Fallible loops *)

#[global] Instance exn_eq_dec : EqDecision exn.
Proof. solve_decision. Defined.

#[global] Instance result_eq_dec {A} `{EqDecision A} : EqDecision (result A).
Proof. solve_decision. Defined.

Lemma mapM_result_cons {A B} (f : A -> result B) (x : A) (l : list A) :
  mapM f (x :: l)
  = match f x with
    | Return y => match mapM f l with
                  | Return k => Return (y :: k)
                  | Raise e => Raise e
                  end
    | Raise e => Raise e
    end.
Proof. reflexivity. Qed.

Lemma mapM_Return_Forall2 {A B} (f : A -> result B) (l : list A) (k : list B) :
  mapM f l = Return k <-> Forall2 (fun x y => f x = Return y) l k.
Proof.
  revert k. induction l as [|x l IH]; intros k.
  - split.
    + intros [= <-]. constructor.
    + intros H. inversion H. reflexivity.
  - rewrite mapM_result_cons. split.
    + destruct (f x) as [y|] eqn:Ex; [|discriminate].
      destruct (mapM f l) as [k'|]; [|discriminate].
      intros [= <-]. constructor; [exact Ex|]. now apply IH.
    + intros H. inversion H as [|? y ? k' Hx Hl]; subst.
      rewrite Hx. apply IH in Hl. now rewrite Hl.
Qed.

Lemma mapM_Return_length {A B} (f : A -> result B) (l : list A) (k : list B) :
  mapM f l = Return k -> length k = length l.
Proof.
  rewrite mapM_Return_Forall2. intros H. symmetry. eapply Forall2_length, H.
Qed.

Lemma mapM_total {A B} (f : A -> result B) (l : list A) :
  Forall (fun x => exists y, f x = Return y) l -> exists k, mapM f l = Return k.
Proof.
  induction 1 as [|x l [y Hy] _ [k IH]]; [now exists []|].
  exists (y :: k). now rewrite mapM_result_cons, Hy, IH.
Qed.

(** ** Sorting the records *)

Lemma keyed_zip (controls : list json) (keys : list (list Z)) :
  Forall2 (fun x k => identifier_key x = Return k) controls keys ->
  Forall keyed (zip keys controls).
Proof.
  induction 1 as [|x k l ks Hx _ IH]; simpl; constructor; [exact Hx|exact IH].
Qed.

Lemma keyed_mapM (d : list (list Z * json)) :
  Forall keyed d -> mapM identifier_key (map snd d) = Return (map fst d).
Proof.
  induction 1 as [|[k x] d Hx _ IH]; [reflexivity|].
  cbn [map]. rewrite mapM_result_cons. unfold keyed in Hx. simpl in Hx.
  simpl. now rewrite Hx, IH.
Qed.

Lemma keyed_sorted (d : list (list Z * json)) :
  Forall keyed d -> StronglySorted (not_after list_ltb) d ->
  StronglySorted key_le (map snd d).
Proof.
  intros Hk Hs. induction Hs as [|[k x] d Hs IH Hx]; simpl; constructor.
  - apply IH. now inversion Hk.
  - inversion Hk as [|? ? Hkx Hkd]; subst.
    rewrite Forall_forall in Hx, Hkd. apply Forall_forall.
    intros y Hy. apply list_elem_of_fmap in Hy as [[k' y'] [-> Hy]].
    exists k, k'. repeat split.
    + exact Hkx.
    + apply (Hkd _ Hy).
    + apply (Hx _ Hy).
Qed.

Lemma keyed_filter (k : list Z) (d : list (list Z * json)) :
  Forall keyed d ->
  filter (fun item => identifier_key item = Return k) (map snd d)
  = map snd (filter (fun p => fst p = k) d).
Proof.
  induction 1 as [|[k' x] d Hx _ IH]; [reflexivity|].
  cbn [map]. rewrite !filter_cons, IH. unfold keyed in Hx. simpl in *.
  destruct (decide (k' = k)) as [->|Hne].
  - rewrite decide_True by exact Hx. reflexivity.
  - rewrite decide_False; [reflexivity|]. rewrite Hx. congruence.
Qed.

Lemma sort_controls_spec (controls : list json) (keys : list (list Z)) :
  mapM identifier_key controls = Return keys ->
  exists sorted,
    sort_controls controls = Return sorted
    /\ Permutation sorted controls
    /\ StronglySorted key_le sorted
    /\ (forall k,
          filter (fun item => identifier_key item = Return k) sorted
          = filter (fun item => identifier_key item = Return k) controls).
Proof.
  intros Hk. unfold sort_controls. rewrite Hk. cbn.
  set (d := zip keys controls).
  assert (Hlen : length keys = length controls)
    by (eapply mapM_Return_length, Hk).
  assert (Hd : Forall keyed d)
    by (apply keyed_zip, mapM_Return_Forall2, Hk).
  assert (Hsnd : map snd d = controls) by (apply snd_zip; lia).
  assert (Hsd : Forall keyed (sort_keyed list_ltb d)).
  { rewrite sort_keyed_perm. exact Hd. }
  eexists. split; [reflexivity|]. split; [|split].
  - etransitivity; [apply Permutation_map, sort_keyed_perm|].
    now rewrite Hsnd.
  - apply keyed_sorted; [exact Hsd|].
    apply sort_keyed_sorted; [apply list_ltb_asym|apply list_ltb_le_trans].
  - intros k. rewrite <- Hsnd at 1. rewrite !keyed_filter by assumption.
    f_equal. apply sort_keyed_filter.
    intros a b Ha Hb. rewrite Ha, Hb. apply list_ltb_irrefl.
Qed.

Lemma keyed_sorted_inv (d : list (list Z * json)) :
  Forall keyed d -> StronglySorted key_le (map snd d) ->
  StronglySorted (not_after list_ltb) d.
Proof.
  induction 1 as [|[k x] d Hx Hd IH]; cbn [map]; intros Hs; [constructor|].
  inversion Hs as [|? ? Hs' Hle]; subst. constructor; [now apply IH|].
  rewrite Forall_forall in Hd. rewrite Forall_forall in Hle.
  apply Forall_forall. intros [k' y] Hy.
  destruct (Hle y) as (ka & kb & Ha & Hb & Hlt).
  { apply list_elem_of_fmap. now exists (k', y). }
  unfold keyed in Hx. specialize (Hd _ Hy). unfold keyed in Hd.
  cbn in *. unfold not_after. cbn. congruence.
Qed.

Lemma same_key_same_items (k : list Z) (a b : list (list Z * json)) :
  Forall (fun p => fst p = k) a -> Forall (fun p => fst p = k) b ->
  map snd a = map snd b -> a = b.
Proof.
  intros Ha. revert b. induction Ha as [|[k1 x] a Hx _ IH]; intros [|[k2 y] b] Hb;
    cbn; try discriminate; [reflexivity|].
  inversion Hb as [|? ? Hy Hb']; subst. cbn in *. subst.
  intros [= -> E]. f_equal. now apply IH.
Qed.

(** X6. The order of the records in the report is fixed by the keys and
    the order of arrival alone: a rearrangement of the input that is
    ascending by key and keeps records of equal key in their order of
    arrival is the list [generate_pdf] sorts the input into. *)
Lemma sort_controls_unique (controls sorted other : list json) (keys : list (list Z)) :
  mapM identifier_key controls = Return keys ->
  sort_controls controls = Return sorted ->
  Permutation other controls ->
  StronglySorted key_le other ->
  (forall k,
     filter (fun item => identifier_key item = Return k) other
     = filter (fun item => identifier_key item = Return k) controls) ->
  other = sorted.
Proof.
  intros Hk Hs Hp Hso Hst.
  assert (Hd : Forall keyed (zip keys controls))
    by (apply keyed_zip, mapM_Return_Forall2, Hk).
  assert (Hsnd : map snd (zip keys controls) = controls).
  { apply snd_zip. rewrite (mapM_Return_length _ _ _ Hk). lia. }
  destruct (mapM_total identifier_key other) as [keys' Hk'].
  { rewrite Hp. rewrite <- Hsnd. apply Forall_fmap.
    eapply Forall_impl; [exact Hd|]. intros [k x] Hx. now exists k. }
  assert (Hd' : Forall keyed (zip keys' other))
    by (apply keyed_zip, mapM_Return_Forall2, Hk').
  assert (Hsnd' : map snd (zip keys' other) = other).
  { apply snd_zip. rewrite (mapM_Return_length _ _ _ Hk'). lia. }
  unfold sort_controls in Hs. rewrite Hk in Hs. cbn in Hs. injection Hs as <-.
  rewrite <- Hsnd'. f_equal.
  apply (@sort_keyed_unique _ _ list_ltb list_ltb_asym list_ltb_le_trans
           _ list_ltb_antisym).
  - apply keyed_sorted_inv; [exact Hd'|]. now rewrite Hsnd'.
  - intros k. apply (same_key_same_items k).
    + apply Forall_forall. intros p Hp'. now apply list_elem_of_filter in Hp'.
    + apply Forall_forall. intros p Hp'. now apply list_elem_of_filter in Hp'.
    + rewrite <- !keyed_filter by assumption. rewrite Hsnd, Hsnd'. apply Hst.
Qed.

(** ** The sort key *)

Lemma int_of_str_raises (s : string) (e : exn) :
  int_of_str s = Raise e -> e = ValueError.
Proof.
  unfold int_of_str. destruct (read_sign (strip s)) as [neg t].
  destruct (digitpart t) as [[[v n] [|c r]]|]; try congruence.
  destruct (n <=? int_max_str_digits)%nat; congruence.
Qed.

Lemma segments_mapM (parts : list string) :
  mapM (fun part => try_except (int_of_str part) ValueError (Return 0)) parts
  = Return (map segment_value parts).
Proof.
  induction parts as [|part parts IH]; [reflexivity|].
  rewrite mapM_result_cons, IH. unfold segment_value. cbn [map].
  destruct (int_of_str part) as [n|e] eqn:E; [reflexivity|].
  apply int_of_str_raises in E as ->. reflexivity.
Qed.

Lemma identifier_key_of_string (item : json) (s : string) :
  record_identifier item = Return (JStr s) ->
  identifier_key item = Return (key_of_identifier s).
Proof.
  unfold record_identifier, identifier_key.
  destruct (get_or_empty item "control") as [control|]; [|discriminate].
  cbn. destruct (dict_get control "identifier" (JStr "")) as [v|]; [|discriminate].
  cbn. intros [= ->]. cbn. apply segments_mapM.
Qed.

Lemma split_dot_nonempty (s : string) : split_dot s <> [].
Proof.
  destruct s as [|c s]; [discriminate|]. simpl.
  destruct (Ascii.eqb c "."); [discriminate|].
  destruct (split_dot s); discriminate.
Qed.

Lemma split_dot_app (p s : string) :
  split_dot (p +:+ String "." s) = split_dot p ++ split_dot s.
Proof.
  induction p as [|c p IH]; [reflexivity|].
  change (String c p +:+ String "." s) with (String c (p +:+ String "." s)).
  cbn [split_dot]. rewrite IH.
  destruct (Ascii.eqb c "."); [reflexivity|].
  destruct (split_dot p) eqn:E; [|reflexivity].
  now apply split_dot_nonempty in E.
Qed.

Lemma list_ltb_app (l a b : list Z) : list_ltb (l ++ a) (l ++ b) = list_ltb a b.
Proof.
  induction l as [|x l IH]; [reflexivity|].
  simpl. now rewrite Z.eqb_refl.
Qed.

Lemma str_ltb_app (p a b : string) : str_ltb (p +:+ a) (p +:+ b) = str_ltb a b.
Proof.
  induction p as [|c p IH]; [reflexivity|].
  change (String c p +:+ a) with (String c (p +:+ a)).
  change (String c p +:+ b) with (String c (p +:+ b)).
  cbn [str_ltb]. now rewrite Ascii.eqb_refl.
Qed.

(** Under a common prefix the key puts ".2" before ".10", the order of
    the strings puts it after. *)
Lemma key_order_under_prefix (p : string) :
  list_ltb (key_of_identifier (p +:+ ".2")) (key_of_identifier (p +:+ ".10")) = true
  /\ str_ltb (p +:+ ".10") (p +:+ ".2") = true.
Proof.
  split.
  - unfold key_of_identifier. rewrite !split_dot_app, !map_app, list_ltb_app.
    reflexivity.
  - rewrite str_ltb_app. reflexivity.
Qed.

(** *** Decimal numerals

    [int] reads back what [str] prints, as long as the numeral has no
    more digits than [int] converts. *)

Lemma digits_tail_uint_pos (d : Decimal.uint) :
  forall (acc : positive) (n : nat),
    digits_tail (Zpos acc) n (NilEmpty.string_of_uint d)
    = (Zpos (Pos.of_uint_acc d acc),
       (n + String.length (NilEmpty.string_of_uint d))%nat, "").
Proof.
  induction d as [|d IH|d IH|d IH|d IH|d IH|d IH|d IH|d IH|d IH|d IH];
    intros acc n;
    [cbn; now rewrite Nat.add_0_r| | | | | | | | | | ];
    cbn [NilEmpty.string_of_uint digits_tail Pos.of_uint_acc String.length];
    match goal with
    | |- context [digit_of ?c] =>
        let v := eval vm_compute in (digit_of c) in
        change (digit_of c) with v; cbv iota beta
    end;
    match goal with
    | |- context [digits_tail ?a (S n) _] =>
        match goal with
        | |- context [Pos.of_uint_acc d ?acc'] =>
            replace a with (Zpos acc') by lia; rewrite IH;
            now rewrite Nat.add_succ_r
        end
    end.
Qed.

Lemma digits_tail_uint_zero (d : Decimal.uint) :
  forall n : nat,
    digits_tail 0 n (NilEmpty.string_of_uint d)
    = (Z.of_N (Pos.of_uint d),
       (n + String.length (NilEmpty.string_of_uint d))%nat, "").
Proof.
  induction d as [|d IH|d IH|d IH|d IH|d IH|d IH|d IH|d IH|d IH|d IH];
    intros n;
    [cbn; now rewrite Nat.add_0_r| | | | | | | | | | ];
    cbn [NilEmpty.string_of_uint digits_tail Pos.of_uint String.length];
    match goal with
    | |- context [digit_of ?c] =>
        let v := eval vm_compute in (digit_of c) in
        change (digit_of c) with v; cbv iota beta
    end;
    [change (10 * 0 + 0) with 0; rewrite IH; now rewrite Nat.add_succ_r
    | | | | | | | | | ];
    cbn [Z.of_N];
    match goal with
    | |- context [digits_tail ?a (S n) _] =>
        match goal with
        | |- context [Pos.of_uint_acc d ?acc'] =>
            change a with (Zpos acc'); rewrite digits_tail_uint_pos;
            now rewrite Nat.add_succ_r
        end
    end.
Qed.

Lemma digitpart_uint (d : Decimal.uint) :
  d <> Decimal.Nil ->
  digitpart (NilEmpty.string_of_uint d)
  = Some (Z.of_N (Pos.of_uint d), String.length (NilEmpty.string_of_uint d), "").
Proof.
  destruct d as [|d|d|d|d|d|d|d|d|d|d]; [contradiction| | | | | | | | | | ];
    intros _;
    cbn [NilEmpty.string_of_uint digitpart Pos.of_uint String.length];
    match goal with
    | |- context [digit_of ?c] =>
        let v := eval vm_compute in (digit_of c) in
        change (digit_of c) with v; cbv iota beta
    end;
    [now rewrite digits_tail_uint_zero| | | | | | | | | ];
    cbn [Z.of_N];
    match goal with
    | |- context [digits_tail ?a 1 _] =>
        match goal with
        | |- context [Pos.of_uint_acc d ?acc'] =>
            change a with (Zpos acc'); now rewrite digits_tail_uint_pos
        end
    end.
Qed.

Lemma uint_string_plain (d : Decimal.uint) :
  rstrip (NilEmpty.string_of_uint d) = NilEmpty.string_of_uint d
  /\ lstrip (NilEmpty.string_of_uint d) = NilEmpty.string_of_uint d
  /\ read_sign (NilEmpty.string_of_uint d) = (false, NilEmpty.string_of_uint d)
  /\ (d <> Decimal.Nil ->
      split_dot (NilEmpty.string_of_uint d) = [NilEmpty.string_of_uint d]).
Proof.
  split; [|split; [|split]].
  - induction d; cbn [NilEmpty.string_of_uint rstrip]; [reflexivity|..];
      rewrite IHd; destruct (NilEmpty.string_of_uint d); reflexivity.
  - destruct d; reflexivity.
  - destruct d; reflexivity.
  - induction d; intros Hd; [contradiction|..];
      cbn [NilEmpty.string_of_uint];
      (destruct d; [reflexivity|..]);
      match goal with
      | |- split_dot (String ?c ?s) = _ =>
          change (split_dot (String c s))
            with (match split_dot s with
                  | h :: t => String c h :: t
                  | [] => [String c ""]
                  end);
          rewrite IHd by discriminate; reflexivity
      end.
Qed.

Lemma uint_string_cons (d : Decimal.uint) :
  d <> Decimal.Nil -> exists c r, NilEmpty.string_of_uint d = String c r.
Proof. destruct d; [contradiction|..]; intros _; cbn; eauto. Qed.

(** What [int] makes of a numeral, bare or with a sign before it. *)
Lemma int_of_str_numeral (d : Decimal.uint) :
  d <> Decimal.Nil ->
  let s := NilEmpty.string_of_uint d in
  let v := Z.of_N (Pos.of_uint d) in
  let read (x : Z) : result Z :=
    if (String.length s <=? int_max_str_digits)%nat then Return x
    else Raise ValueError in
  int_of_str s = read v
  /\ int_of_str (String "-" s) = read (- v)
  /\ int_of_str (String "+" s) = read v.
Proof.
  intros Hd s v read.
  destruct (uint_string_plain d) as (Hr & Hl & Hs & _).
  destruct (uint_string_cons d Hd) as (c & r & Hc).
  pose proof (digitpart_uint d Hd) as Hp.
  fold s in Hr, Hl, Hs, Hc, Hp. fold v in Hp.
  assert (Hsigned : forall sign,
             is_space sign = false ->
             strip (String sign s) = String sign s).
  { intros sign Hsp. unfold strip. cbn [lstrip]. rewrite Hsp.
    cbn [rstrip]. rewrite Hr, Hc. reflexivity. }
  split; [|split].
  - unfold int_of_str, strip. rewrite Hl, Hr, Hs, Hp. reflexivity.
  - unfold int_of_str. rewrite (Hsigned "-"%char eq_refl).
    cbn [read_sign]. change (Ascii.eqb "-" "-") with true. cbv iota.
    rewrite Hp. reflexivity.
  - unfold int_of_str. rewrite (Hsigned "+"%char eq_refl).
    cbn [read_sign]. change (Ascii.eqb "+" "-") with false.
    change (Ascii.eqb "+" "+") with true. cbv iota.
    rewrite Hp. reflexivity.
Qed.

Lemma str_of_Z_pos (p : positive) :
  str_of_Z (Zpos p) = NilEmpty.string_of_uint (Pos.to_uint p)
  /\ str_of_Z (Zneg p) = String "-" (NilEmpty.string_of_uint (Pos.to_uint p)).
Proof.
  pose proof (Unsigned.to_uint_nonnil p) as Hp.
  unfold str_of_Z. cbn [Z.to_int NilZero.string_of_int].
  unfold NilZero.string_of_uint.
  destruct (Pos.to_uint p); [contradiction|..]; split; reflexivity.
Qed.

(** [int(str(z))] is [z] for a numeral within the limit, and a
    [ValueError] beyond. *)
Lemma int_of_str_Z (z : Z) :
  int_of_str (str_of_Z z)
  = if (numeral_digits z <=? int_max_str_digits)%nat then Return z
    else Raise ValueError.
Proof.
  destruct z as [|p|p]; [reflexivity| |]; unfold numeral_digits;
    change (Z.abs (Z.pos p)) with (Z.pos p);
    change (Z.abs (Z.neg p)) with (Z.pos p);
    destruct (str_of_Z_pos p) as [Ep En];
    destruct (int_of_str_numeral (Pos.to_uint p) (Unsigned.to_uint_nonnil p))
      as (H1 & H2 & _); rewrite Unsigned.of_to in H1, H2.
  - rewrite Ep. exact H1.
  - rewrite En, Ep. exact H2.
Qed.

Lemma int_of_str_plus (n : N) :
  int_of_str (String "+" (str_of_Z (Z.of_N n)))
  = if (numeral_digits (Z.of_N n) <=? int_max_str_digits)%nat then Return (Z.of_N n)
    else Raise ValueError.
Proof.
  destruct n as [|p]; [reflexivity|]. unfold numeral_digits.
  change (Z.abs (Z.of_N (N.pos p))) with (Z.pos p).
  change (Z.of_N (N.pos p)) with (Z.pos p).
  destruct (str_of_Z_pos p) as [Ep _].
  destruct (int_of_str_numeral (Pos.to_uint p) (Unsigned.to_uint_nonnil p))
    as (_ & _ & H3). rewrite Unsigned.of_to in H3.
  rewrite Ep. exact H3.
Qed.

Lemma segment_value_Z (z : Z) :
  (numeral_digits z <= int_max_str_digits)%nat -> segment_value (str_of_Z z) = z.
Proof.
  intros H. unfold segment_value. rewrite int_of_str_Z.
  now rewrite (proj2 (Nat.leb_le _ _) H).
Qed.

Lemma segment_value_too_long (z : Z) :
  (int_max_str_digits < numeral_digits z)%nat -> segment_value (str_of_Z z) = 0.
Proof.
  intros H. unfold segment_value. rewrite int_of_str_Z.
  now rewrite (proj2 (Nat.leb_gt _ _) H).
Qed.

Lemma split_dot_Z (z : Z) : split_dot (str_of_Z z) = [str_of_Z z].
Proof.
  destruct z as [|p|p]; [reflexivity| |]; destruct (str_of_Z_pos p) as [Ep En];
    destruct (uint_string_plain (Pos.to_uint p)) as (_ & _ & _ & Hd);
    specialize (Hd (Unsigned.to_uint_nonnil p)).
  - now rewrite Ep.
  - rewrite En.
    change (split_dot (String "-" ?s))
      with (match split_dot s with
            | h :: t => String "-" h :: t
            | [] => [String "-" ""]
            end).
    now rewrite Hd.
Qed.

(** Under a common prefix, identifiers are ordered as their last
    segments are as numbers. *)
Lemma key_order_numeric (p : string) (a b : Z) :
  (numeral_digits a <= int_max_str_digits)%nat ->
  (numeral_digits b <= int_max_str_digits)%nat ->
  list_ltb (key_of_identifier (p +:+ String "." (str_of_Z a)))
           (key_of_identifier (p +:+ String "." (str_of_Z b)))
  = (a <? b).
Proof.
  intros Ha Hb. unfold key_of_identifier.
  rewrite !split_dot_app, !map_app, list_ltb_app, !split_dot_Z.
  cbn [map list_ltb]. rewrite !segment_value_Z by assumption.
  destruct (Z.eqb_spec a b) as [->|_]; [|reflexivity].
  symmetry. apply Z.ltb_irrefl.
Qed.

(** A key that begins another comes strictly before it. *)
Lemma list_ltb_extension (k k' : list Z) :
  k' <> [] -> list_ltb k (k ++ k') = true.
Proof.
  intros Hk. induction k as [|x k IH]; cbn.
  - destruct k'; [contradiction|reflexivity].
  - now rewrite Z.eqb_refl.
Qed.

Lemma key_order_extension (s t : string) :
  list_ltb (key_of_identifier s) (key_of_identifier (s +:+ String "." t)) = true.
Proof.
  unfold key_of_identifier. rewrite split_dot_app, map_app.
  apply list_ltb_extension. intros E. apply map_eq_nil in E.
  now apply split_dot_nonempty in E.
Qed.

(** C4, as the program has it.  [generate_pdf] sorts the records with
    [list.sort], which is stable, by [identifier_key]: the sorted list
    is a rearrangement of the input, ascending by key, in which records
    of equal key keep their relative order.  The key of a record is its
    identifier split on "." with every segment mapped to the integer
    [int] reads in it: the value of a decimal numeral of at most 4300
    digits, with or without a sign, and 0 for a segment that is empty,
    is no numeral or is a numeral of more digits; an absent identifier
    is the empty string, of key [0].  Keys are compared as lists: a key
    that begins another comes strictly before it, so that "3" sorts
    before "3.0", and under a common prefix two identifiers are ordered
    as their last segments are as numbers; so, under every prefix and
    for "3.2" and "3.10", the key orders ".10" after ".2" where the
    order of strings does the opposite. *)
Theorem sort_by_identifier_key (controls : list json) (keys : list (list Z))
    (Hkeys : mapM identifier_key controls = Return keys) :
  (exists sorted,
      sort_controls controls = Return sorted
      /\ Permutation sorted controls
      /\ StronglySorted key_le sorted
      /\ (forall k,
            filter (fun item => identifier_key item = Return k) sorted
            = filter (fun item => identifier_key item = Return k) controls))
  /\ (forall item s,
        record_identifier item = Return (JStr s) ->
        identifier_key item = Return (map segment_value (split_dot s)))
  /\ (forall part n, int_of_str part = Return n -> segment_value part = n)
  /\ (forall part e, int_of_str part = Raise e -> segment_value part = 0)
  /\ (forall z : Z,
        (numeral_digits z <= int_max_str_digits)%nat ->
        segment_value (str_of_Z z) = z)
  /\ (forall n : N,
        (numeral_digits (Z.of_N n) <= int_max_str_digits)%nat ->
        segment_value (String "+" (str_of_Z (Z.of_N n))) = Z.of_N n)
  /\ (forall z : Z,
        (int_max_str_digits < numeral_digits z)%nat ->
        segment_value (str_of_Z z) = 0)
  /\ segment_value "" = 0
  /\ segment_value "x" = 0
  /\ segment_value " 7 " = 7
  /\ segment_value "1_000" = 1000
  /\ segment_value "-1" = -1
  /\ segment_value "+5" = 5
  /\ (forall item (control : gmap string json),
        get_or_empty item "control" = Return (JObj control) ->
        control !! "identifier" = None ->
        identifier_key item = Return [0])
  /\ (forall s t,
        list_ltb (key_of_identifier s) (key_of_identifier (s +:+ String "." t))
        = true)
  /\ (forall p (a b : Z),
        (numeral_digits a <= int_max_str_digits)%nat ->
        (numeral_digits b <= int_max_str_digits)%nat ->
        list_ltb (key_of_identifier (p +:+ String "." (str_of_Z a)))
                 (key_of_identifier (p +:+ String "." (str_of_Z b)))
        = (a <? b))
  /\ (forall p,
        list_ltb (key_of_identifier (p +:+ ".2")) (key_of_identifier (p +:+ ".10")) = true
        /\ str_ltb (p +:+ ".10") (p +:+ ".2") = true)
  /\ key_of_identifier "3.2" = [3; 2]
  /\ key_of_identifier "3.10" = [3; 10]
  /\ list_ltb (key_of_identifier "3.2") (key_of_identifier "3.10") = true
  /\ str_ltb "3.10" "3.2" = true.
Proof.
  split; [eapply sort_controls_spec, Hkeys|].
  split; [apply identifier_key_of_string|].
  split; [intros part n E; unfold segment_value; now rewrite E|].
  split; [intros part e E; unfold segment_value; now rewrite E|].
  split; [apply segment_value_Z|].
  split.
  { intros n Hn. unfold segment_value. rewrite int_of_str_plus.
    now rewrite (proj2 (Nat.leb_le _ _) Hn). }
  split; [apply segment_value_too_long|].
  do 6 (split; [vm_compute; reflexivity|]).
  split.
  { intros item control Hc Hi. apply (identifier_key_of_string _ "").
    unfold record_identifier. rewrite Hc. cbn. now rewrite Hi. }
  split; [apply key_order_extension|].
  split; [apply key_order_numeric|].
  split; [apply key_order_under_prefix|].
  repeat split; vm_compute; reflexivity.
Qed.

(** C4, as the specification words it, fails.  A missing segment does
    not compare as 0: the key of "3" is shorter than the key of "3.0"
    and comes strictly before it, so the sort moves "3" before "3.0"
    where keys filled up with zeros would be equal and the stable sort
    would leave the two records as they came.  And a segment is not
    always mapped to its integer value: a numeral of 4301 digits is
    mapped to 0. *)
Lemma shorter_key_sorts_first :
  sort_controls [record_with_identifier "3.0"; record_with_identifier "3"]
  = Return [record_with_identifier "3"; record_with_identifier "3.0"]
  /\ list_ltb (key_of_identifier "3") (key_of_identifier "3.0") = true
  /\ list_ltb_padded (key_of_identifier "3") (key_of_identifier "3.0") = false
  /\ list_ltb_padded (key_of_identifier "3.0") (key_of_identifier "3") = false
  /\ identifier_key (record_with_identifier long_numeral) = Return [0].
Proof. repeat split; vm_compute; reflexivity. Qed.

Lemma sort_by_identifier_key_witness :
  exists sorted,
    sort_controls [record_with_identifier "3.10"; record_with_identifier "3.2";
                   record_with_identifier "3"]
    = Return sorted
    /\ Permutation sorted [record_with_identifier "3.10"; record_with_identifier "3.2";
                           record_with_identifier "3"].
Proof.
  destruct (sort_by_identifier_key
              [record_with_identifier "3.10"; record_with_identifier "3.2";
               record_with_identifier "3"]
              [[3; 10]; [3; 2]; [3]] eq_refl) as [(sorted & H1 & H2 & _) _].
  exists sorted. split; assumption.
Defined.

(** ** The renderer *)

Lemma sort_controls_idem (controls sorted : list json) :
  sort_controls controls = Return sorted -> sort_controls sorted = Return sorted.
Proof.
  unfold sort_controls.
  destruct (mapM identifier_key controls) as [keys|] eqn:Hk; [|discriminate].
  cbn. intros [= <-].
  assert (Hsd : Forall keyed (sort_keyed list_ltb (zip keys controls))).
  { rewrite sort_keyed_perm. apply keyed_zip, mapM_Return_Forall2, Hk. }
  rewrite (keyed_mapM _ Hsd). cbn.
  change (map fst ?l) with (fst <$> l). change (map snd ?l) with (snd <$> l).
  rewrite zip_fst_snd.
  rewrite sort_keyed_idem; [reflexivity|apply list_ltb_asym|apply list_ltb_le_trans].
Qed.

(** *** The layout engine *)

Lemma drawn_text_app (a b : list canvas_op) :
  drawn_text (a ++ b) = drawn_text a ++ drawn_text b.
Proof.
  induction a as [|op a IH]; [reflexivity|].
  destruct op; simpl; now rewrite IH.
Qed.

Lemma draw_line_at_margin (st : layout) (line : string) :
  ypos st <= y_margin ->
  draw_line st line
  = {| canv := canv st ++ [ShowPage; SetFont "Helvetica" 10;
                           DrawString x_margin (height - y_margin) line];
       ypos := height - y_margin - line_height |}.
Proof.
  intros Hy. unfold draw_line. rewrite (proj2 (Z.leb_le _ _) Hy).
  unfold emit, set_y. cbn [canv ypos]. now rewrite <- app_assoc.
Qed.

Lemma draw_line_above_margin (st : layout) (line : string) :
  y_margin < ypos st ->
  draw_line st line
  = {| canv := canv st ++ [DrawString x_margin (ypos st) line];
       ypos := ypos st - line_height |}.
Proof.
  intros Hy. unfold draw_line. rewrite (proj2 (Z.leb_gt _ _) Hy). reflexivity.
Qed.

Lemma draw_line_cases (st : layout) (line : string) :
  exists ops y,
    draw_line st line
    = {| canv := canv st ++ ops ++ [DrawString x_margin y line];
         ypos := y - line_height |}
    /\ y_margin < y
    /\ drawn_text ops = [].
Proof.
  destruct (Z.le_gt_cases (ypos st) y_margin) as [Hy|Hy].
  - exists [ShowPage; SetFont "Helvetica" 10], (height - y_margin).
    rewrite (draw_line_at_margin _ _ Hy). repeat split.
  - exists [], (ypos st). rewrite (draw_line_above_margin _ _ Hy).
    repeat split. lia.
Qed.


Lemma draw_line_above (st : layout) (line : string) :
  Forall above_margin (canv st) -> Forall above_margin (canv (draw_line st line)).
Proof.
  intros Hst. destruct (draw_line_cases st line) as (ops & y & -> & Hy & Hops).
  cbn [canv]. rewrite !Forall_app. repeat split; [exact Hst| |].
  - clear -Hops. induction ops as [|[] ops IH]; try discriminate;
      constructor; simpl; auto.
  - constructor; [exact Hy|constructor].
Qed.


Lemma draw_lines_above (lines : list string) (st : layout) :
  Forall above_margin (canv st) ->
  Forall above_margin (canv (fold_left draw_line lines st)).
Proof.
  revert st. induction lines as [|line lines IH]; intros st Hst; simpl;
    [exact Hst|]. now apply IH, draw_line_above.
Qed.

Section RendererFacts.
Variable py_repr : json -> string.
Variable textwrap_wrap : string -> Z -> list string.

Let wrap (text : string) : list string := textwrap_wrap text 100.

(** A key that raises stops the call before the list is touched. *)
Lemma generate_pdf_key_raises (controls : list json) (e : exn) :
  sort_controls controls = Raise e ->
  generate_pdf py_repr textwrap_wrap controls = (controls, Raise e).
Proof. intros H. unfold generate_pdf. now rewrite H. Qed.

(** X5. A second call on the list the first call left behind returns the
    same document, or raises the same exception, and leaves the list as
    the first call left it. *)
Lemma generate_pdf_twice (controls : list json) :
  generate_pdf py_repr textwrap_wrap
    (fst (generate_pdf py_repr textwrap_wrap controls))
  = generate_pdf py_repr textwrap_wrap controls.
Proof.
  unfold generate_pdf.
  destruct (sort_controls controls) as [sorted|e] eqn:Hs; cbn [fst].
  - now rewrite (sort_controls_idem _ _ Hs).
  - now rewrite Hs.
Qed.

(** C10. [generate_pdf] sorts the list it is given in place: once the
    call is over the caller's list holds the same records, none of them
    changed, in ascending order of [identifier_key], records of equal
    key in their former relative order. *)
Theorem generate_pdf_sorts_argument (controls : list json) (keys : list (list Z))
    (Hkeys : mapM identifier_key controls = Return keys) :
  let after := fst (generate_pdf py_repr textwrap_wrap controls) in
  sort_controls controls = Return after
  /\ Permutation after controls
  /\ StronglySorted key_le after
  /\ (forall k,
        filter (fun item => identifier_key item = Return k) after
        = filter (fun item => identifier_key item = Return k) controls)
  /\ fst (generate_pdf py_repr textwrap_wrap after) = after.
Proof.
  destruct (sort_controls_spec controls keys Hkeys) as (sorted & Hs & Hp & Hso & Hst).
  unfold generate_pdf. rewrite Hs. cbn [fst].
  rewrite (sort_controls_idem _ _ Hs). cbn [fst]. auto.
Qed.



Lemma draw_block_above (lines : list string) (st : layout) :
  Forall above_margin (canv st) ->
  Forall above_margin
    (canv (fold_left (fun s text => draw_wrapped textwrap_wrap text s) lines st)).
Proof.
  revert st. induction lines as [|text lines IH]; intros st Hst; simpl;
    [exact Hst|]. now apply IH, draw_lines_above.
Qed.


Lemma draw_body_above (controls : list json) (st st' : layout) :
  draw_body py_repr textwrap_wrap controls st = Return st' ->
  Forall above_margin (canv st) -> Forall above_margin (canv st').
Proof.
  revert st. induction controls as [|item controls IH]; intros st; cbn [draw_body].
  - now intros [= <-].
  - destruct (block_lines py_repr item) as [lines|]; [|discriminate].
    cbn. intros Hb Hst. eapply IH; [exact Hb|]. now apply draw_block_above.
Qed.

Lemma dict_get_inv (d : json) (k : string) (default v : json) :
  dict_get d k default = Return v ->
  exists m, d = JObj m /\ v = from_option id default (m !! k).
Proof. destruct d; try discriminate. intros [= <-]. eauto. Qed.

Lemma block_lines_shape (item : json) (b : list string) :
  block_lines py_repr item = Return b ->
  exists control info raw,
    get_or_empty item "control" = Return (JObj control)
    /\ get_or_empty item "effectivenessInfo" = Return (JObj info)
    /\ formula_value item = Return raw
    /\ b = [ "Identifier    : " +:+ field_text py_repr control "identifier";
             "Name          : " +:+ field_text py_repr control "name";
             "Description   : " +:+ field_text py_repr control "description";
             "Value         : "
               +:+ (if in_none_str0_0 raw then "N/A" else py_str py_repr raw);
             "Effectiveness : " +:+ field_text py_repr info "name";
             separator_rule ].
Proof.
  unfold block_lines.
  destruct (get_or_empty item "control") as [c|]; [|discriminate]. cbn.
  destruct (dict_get c "identifier" (JStr "N/A")) as [i|] eqn:Hi; [|discriminate].
  apply dict_get_inv in Hi as (control & -> & ->). cbn.
  destruct (formula_value item) as [raw|]; [|discriminate]. cbn.
  destruct (get_or_empty item "effectivenessInfo") as [inf|]; [|discriminate]. cbn.
  destruct (dict_get inf "name" (JStr "N/A")) as [e|] eqn:He; [|discriminate].
  apply dict_get_inv in He as (info & -> & ->). cbn.
  intros [= <-]. exists control, info, raw. repeat split.
  unfold field_text.
  destruct (control !! "identifier"), (control !! "name"),
    (control !! "description"), (info !! "name"), (in_none_str0_0 raw);
    reflexivity.
Qed.


(** C8. Before a physical line is drawn the cursor is compared with the
    bottom margin: at or below it the page is closed, the body font set
    again and the line drawn at the top margin; above it the line is
    drawn where the cursor stands; either way the cursor then moves down
    by one line height.  The test is made for every physical line, so a
    block whose first line takes the last place of a page goes on at the
    top of the next page, and no text of a document is drawn at or below
    the bottom margin. *)
Theorem page_break_per_line (controls sorted : list json) (doc : list canvas_op)
    (Hdoc : generate_pdf py_repr textwrap_wrap controls = (sorted, Return doc)) :
  Forall above_margin doc
  /\ (forall text st,
        draw_wrapped textwrap_wrap text st = fold_left draw_line (wrap text) st)
  /\ (forall st line,
        ypos st <= y_margin ->
        draw_line st line
        = {| canv := canv st ++ [ShowPage; SetFont "Helvetica" 10;
                                 DrawString x_margin (height - y_margin) line];
             ypos := height - y_margin - line_height |})
  /\ (forall st line,
        y_margin < ypos st ->
        draw_line st line
        = {| canv := canv st ++ [DrawString x_margin (ypos st) line];
             ypos := ypos st - line_height |})
  /\ (forall st text first second rest,
        wrap text = first :: second :: rest ->
        y_margin < ypos st <= y_margin + line_height ->
        draw_wrapped textwrap_wrap text st
        = fold_left draw_line rest
            {| canv := canv st ++ [DrawString x_margin (ypos st) first;
                                   ShowPage; SetFont "Helvetica" 10;
                                   DrawString x_margin (height - y_margin) second];
               ypos := height - y_margin - line_height |}).
Proof.
  split; [|split; [reflexivity|split; [|split]]].
  - unfold generate_pdf in Hdoc.
    destruct (sort_controls controls) as [sorted'|]; [|discriminate].
    injection Hdoc as <- Hr. unfold render_sorted in Hr.
    destruct (company_name sorted') as [company|]; [|discriminate]. cbn in Hr.
    destruct (collect_values sorted' []) as [values|]; [|discriminate]. cbn in Hr.
    destruct (draw_body _ _ sorted' _) as [st|] eqn:Hb; [|discriminate].
    cbn in Hr. injection Hr as <-.
    apply Forall_app. split; [|repeat constructor].
    eapply draw_body_above; [exact Hb|].
    cbn. repeat constructor.
  - apply draw_line_at_margin.
  - apply draw_line_above_margin.
  - intros st text first second rest Hw [Hlo Hhi].
    unfold draw_wrapped. fold (wrap text). rewrite Hw. cbn [fold_left].
    rewrite (draw_line_above_margin _ _ Hlo).
    rewrite draw_line_at_margin by (cbn [ypos]; lia).
    cbn [canv ypos]. now rewrite <- app_assoc.
Qed.
End RendererFacts.

Lemma generate_pdf_sorts_argument_witness :
  Permutation
    (fst (generate_pdf no_repr one_line
            [record_with_identifier "3.10"; record_with_identifier "3.2"]))
    [record_with_identifier "3.10"; record_with_identifier "3.2"].
Proof.
  apply (generate_pdf_sorts_argument no_repr one_line
           [record_with_identifier "3.10"; record_with_identifier "3.2"]
           [[3; 10]; [3; 2]] eq_refl).
Defined.

(** ** The company name *)

Lemma company_name_skip (before rest : list json) :
  Forall no_hint before -> company_name (before ++ rest) = company_name rest.
Proof.
  induction 1 as [|item before (o & p & Ho & Hto & Hp & Htp) _ IH]; [reflexivity|].
  cbn [app company_name]. unfold org_hint in Ho. unfold primary_hint in Hp.
  destruct (get_or_empty item "control") as [control|]; [|discriminate].
  cbn in Ho |- *. rewrite Ho. cbn. rewrite Hto.
  destruct (get_or_empty item "primaryEntity") as [primary|]; [|discriminate].
  cbn in Hp |- *. rewrite Hp. cbn. rewrite Htp. exact IH.
Qed.

Lemma company_name_here (item v : json) (rest : list json) :
  has_hint item v -> company_name (item :: rest) = Return v.
Proof.
  cbn [company_name]. unfold has_hint, org_hint, primary_hint.
  destruct (get_or_empty item "control") as [control|]; cbn.
  - intros [[-> Ht]|(o & -> & Hto & Hp & Htp)]; cbn.
    + now rewrite Ht.
    + rewrite Hto.
      destruct (get_or_empty item "primaryEntity") as [primary|]; [|discriminate].
      cbn in Hp |- *. rewrite Hp. cbn. now rewrite Htp.
  - intros [[H _]|(o & H & _)]; discriminate.
Qed.

Lemma company_name_without_org (controls : list json) :
  Forall (fun item => exists o, org_hint item = Return o /\ truthy o = false) controls ->
  company_name controls = company_name_two_pass controls.
Proof.
  unfold company_name_two_pass. intros H.
  assert (Ho : first_nonempty org_hint controls = Return None).
  { induction H as [|item controls (o & Ho & Hto) _ IH]; [reflexivity|].
    cbn [first_nonempty]. rewrite Ho. cbn. now rewrite Hto. }
  rewrite Ho. cbn.
  induction H as [|item controls (o & Hoi & Hto) H IH]; [reflexivity|].
  cbn [company_name first_nonempty]. unfold org_hint in Hoi.
  destruct (get_or_empty item "control") as [control|]; [|discriminate].
  cbn in Hoi |- *. rewrite Hoi. cbn. rewrite Hto.
  unfold primary_hint.
  destruct (get_or_empty item "primaryEntity") as [primary|]; [|reflexivity].
  cbn. destruct (dict_get primary "name" JNull) as [name|]; [|reflexivity].
  cbn. destruct (truthy name); [reflexivity|].
  apply IH. clear -H. induction H as [|i c (o & Ho & Hto) _ IH]; [reflexivity|].
  cbn [first_nonempty]. rewrite Ho. cbn. now rewrite Hto.
Qed.

(** C1, as the program has it.  The records are scanned once, in sorted
    order, and the scan stops at the first record that carries a hint:
    its [orgGroupName] if that is not empty, else its
    [primaryEntity.name] if that is not empty.  When no record carries
    either, the name is "Unknown Company".  When no record carries an
    [orgGroupName], the name is the first non-empty
    [primaryEntity.name], as the specification has it. *)
Theorem company_name_first_hint (before after : list json) (item v : json)
    (Hbefore : Forall no_hint before) :
  (has_hint item v -> company_name (before ++ item :: after) = Return v)
  /\ company_name before = Return (JStr "Unknown Company")
  /\ company_name before = company_name_two_pass before
  /\ (forall controls,
        Forall (fun r => exists o, org_hint r = Return o /\ truthy o = false) controls ->
        company_name controls = company_name_two_pass controls).
Proof.
  split; [|split; [|split]].
  - intros Hv. rewrite company_name_skip by exact Hbefore.
    now apply company_name_here.
  - rewrite <- (app_nil_r before). now rewrite company_name_skip.
  - apply company_name_without_org.
    eapply Forall_impl; [exact Hbefore|].
    intros r (o & p & Ho & Hto & _). eauto.
  - apply company_name_without_org.
Qed.

Lemma company_name_first_hint_witness :
  company_name (record_with_identifier "0" :: acme_then_globex)
  = Return (JStr "Acme Corp").
Proof.
  refine (proj1 (company_name_first_hint [record_with_identifier "0"]
                   (tl acme_then_globex) (hd JNull acme_then_globex)
                   (JStr "Acme Corp") _) _).
  - constructor; [|constructor].
    exists JNull, JNull. repeat split; vm_compute; reflexivity.
  - right. exists JNull. repeat split; vm_compute; reflexivity.
Defined.

(** C1, as the specification words it, fails: a record with only a
    [primaryEntity.name] that sorts before a record with an
    [orgGroupName] gives its name to the company. *)
Lemma company_name_not_two_pass :
  sort_controls acme_then_globex = Return acme_then_globex
  /\ company_name acme_then_globex = Return (JStr "Acme Corp")
  /\ company_name_two_pass acme_then_globex = Return (JStr "Globex")
  /\ company_name acme_then_globex <> company_name_two_pass acme_then_globex
  /\ (exists doc,
        generate_pdf no_repr one_line acme_then_globex = (acme_then_globex, Return doc)
        /\ head (drawn_text doc) = Some "OneTrust Controls Summary - Acme Corp").
Proof.
  split; [vm_compute; reflexivity|].
  split; [vm_compute; reflexivity|].
  split; [vm_compute; reflexivity|].
  split; [intros E; vm_compute in E; discriminate E|].
  eexists. split; vm_compute; reflexivity.
Qed.

(** ** The average score *)

Lemma float_of_str_raises (s : string) (e : exn) :
  float_of_str s = Raise e -> e = ValueError.
Proof.
  unfold float_of_str. destruct (read_sign (strip s)) as [neg t].
  destruct (String.eqb _ "inf" || String.eqb _ "infinity"); [discriminate|].
  destruct (String.eqb _ "nan"); [discriminate|].
  destruct (read_number t) as [[[m fd] rest]|]; [|congruence].
  destruct (read_exponent rest); congruence.
Qed.

Lemma py_float_scalar (v : json) :
  scalar_score v = true -> in_none_str0_0 v = false ->
  (exists x, py_float v = Return x) \/ py_float v = Raise ValueError.
Proof.
  destruct v as [|b|z|f|s|l|m]; cbn [scalar_score in_none_str0_0 py_float];
    try discriminate; eauto.
  - destruct (float_of_Z z); try discriminate; eauto.
  - intros _ _. destruct (float_of_str s) as [x|e] eqn:E; [eauto|].
    right. now rewrite (float_of_str_raises _ _ E).
Qed.

Lemma collect_values_scalar (controls scores : list json) (values : list spec_float) :
  mapM formula_value controls = Return scores ->
  Forall (fun v => scalar_score v = true) scores ->
  collect_values controls values = Return (values ++ omap included_score scores).
Proof.
  revert scores values. induction controls as [|item controls IH];
    intros scores values Hs Hsc.
  - injection Hs as <-. cbn. now rewrite app_nil_r.
  - rewrite mapM_result_cons in Hs.
    destruct (formula_value item) as [v|] eqn:Hv; [|discriminate].
    destruct (mapM formula_value controls) as [scores'|]; [|discriminate].
    injection Hs as <-. inversion Hsc as [|? ? Hv1 Hsc']; subst.
    cbn [collect_values omap]. rewrite Hv. cbn. unfold included_score.
    destruct (in_none_str0_0 v) eqn:Hin; cbn.
    + now apply IH.
    + destruct (py_float_scalar v Hv1 Hin) as [[x ->]| ->]; cbn.
      * rewrite (IH scores' (values ++ [x]) eq_refl Hsc'), <- app_assoc.
        reflexivity.
      * now apply IH.
Qed.

Lemma included_score_none (v : json) :
  scalar_score v = true ->
  (included_score v = None
   <-> in_none_str0_0 v = true
       \/ exists s, v = JStr s /\ float_of_str s = Raise ValueError).
Proof.
  intros Hsc. unfold included_score.
  destruct (in_none_str0_0 v) eqn:Hin; [intuition|].
  split.
  - destruct v as [|b|z|f|s|l|m]; cbn in *; try discriminate.
    + destruct (float_of_Z z); discriminate.
    + destruct (float_of_str s) as [x|e] eqn:E; [discriminate|].
      intros _. right. exists s. now rewrite (float_of_str_raises _ _ E) in E.
  - intros [?|(s & -> & Hs)]; [discriminate|]. cbn. now rewrite Hs.
Qed.

(** C2, as the program has it.  Over records whose formula values are
    [None], booleans, strings or numbers a float can hold, a value is
    left out of the aggregation exactly when it is [None], the string
    "0", equal to the number 0, or a string that does not parse as a
    float; the values kept are parsed in the order of the records; the
    average is their sum divided by their count and the summary line
    shows it with two decimals, or "N/A" when no value is kept.  For the
    scores 0, "0", [None], "5", "15" the values kept are 5 and 15 and
    the line shows 10.00. *)
Theorem average_of_included_scores (controls scores : list json)
    (Hscores : mapM formula_value controls = Return scores)
    (Hscalar : Forall (fun v => scalar_score v = true) scores) :
  collect_values controls [] = Return (omap included_score scores)
  /\ Forall (fun v =>
        included_score v = None
        <-> in_none_str0_0 v = true
            \/ exists s, v = JStr s /\ float_of_str s = Raise ValueError) scores
  /\ (forall v, in_none_str0_0 v = true
               <-> v = JNull \/ v = JStr "0" \/ v = JInt 0 \/ v = JBool false
                   \/ exists f, v = JFloat f /\ float_eqb f float_zero = true)
  /\ (forall x values,
        avg_text (average (x :: values))
        = "Average Score of Applicable Controls: "
          +:+ format_2f (float_div (py_sum (x :: values))
                           (float_of_Z (Z.of_nat (length (x :: values))))))
  /\ avg_text (average []) = "Average Score of Applicable Controls: N/A"
  /\ collect_values five_scores [] = Return [float_of_Z 5; float_of_Z 15]
  /\ avg_text (average [float_of_Z 5; float_of_Z 15])
     = "Average Score of Applicable Controls: 10.00".
Proof.
  split; [apply (collect_values_scalar controls scores [] Hscores Hscalar)|].
  split.
  { eapply Forall_impl; [exact Hscalar|]. intros v. apply included_score_none. }
  split.
  { intros v. split.
    - destruct v as [|[]|z|f|s|l|m]; cbn; try discriminate; auto.
      + intros ->%Z.eqb_eq. auto.
      + intros Hf. do 4 right. now exists f.
      + intros ->%String.eqb_eq. auto.
    - intros [->|[->|[->|[->|(f & -> & Hf)]]]]; auto. }
  split; [reflexivity|]. split; [reflexivity|].
  split; vm_compute; reflexivity.
Qed.

Lemma average_of_included_scores_witness :
  collect_values five_scores []
  = Return (omap included_score [JInt 0; JStr "0"; JNull; JStr "5"; JStr "15"]).
Proof.
  refine (proj1 (average_of_included_scores five_scores
                   [JInt 0; JStr "0"; JNull; JStr "5"; JStr "15"] _ _)).
  - vm_compute; reflexivity.
  - repeat constructor.
Defined.

(** C2, as the specification words it, fails: the formula value "abc" is
    none of [None], "0" and 0, and is left out of the aggregation all
    the same; with it alone the summary line shows "N/A". *)
Lemma unparsable_score_left_out :
  formula_value (record_with_score (JStr "abc")) = Return (JStr "abc")
  /\ in_none_str0_0 (JStr "abc") = false
  /\ collect_values [record_with_score (JStr "abc")] [] = Return []
  /\ (exists doc,
        generate_pdf no_repr one_line [record_with_score (JStr "abc")]
        = ([record_with_score (JStr "abc")], Return doc)
        /\ drawn_text doc !! 1%nat = Some "Average Score of Applicable Controls: N/A"
        /\ drawn_text doc !! 5%nat = Some "Value         : abc").
Proof.
  split; [vm_compute; reflexivity|]. split; [reflexivity|].
  split; [vm_compute; reflexivity|].
  eexists. repeat split; vm_compute; reflexivity.
Qed.

(** ** Rendering records of the expected shape *)

Lemma well_formed_key (item : json) :
  well_formed item -> exists k, identifier_key item = Return k.
Proof.
  intros [(control & s & Hc & Hs) _]. exists (key_of_identifier s).
  apply identifier_key_of_string. unfold record_identifier.
  rewrite Hc. cbn. now rewrite Hs.
Qed.

Lemma company_name_total (controls : list json) :
  Forall well_formed controls -> exists v, company_name controls = Return v.
Proof.
  induction 1 as [|item controls Hw _ IH]; [eexists; reflexivity|].
  destruct Hw as [(control & s & Hc & _) [(primary & Hp) _]].
  cbn [company_name]. rewrite Hc. cbn.
  destruct (truthy _); [eauto|]. rewrite Hp. cbn.
  destruct (truthy _); [eauto|]. exact IH.
Qed.

Example well_formed_examples :
  Forall well_formed
    [ obj [];
      obj [("control", JNull); ("attributes", JNull); ("primaryEntity", JNull)];
      record_with_identifier "3.x";
      record_with_score (JStr "abc");
      obj [("attributes", obj [(formula_key, JArr [])])] ].
Proof.
  repeat (apply List.Forall_cons;
          [split; [do 2 eexists; split; [vm_compute; reflexivity|reflexivity]|];
           split; [eexists; vm_compute; reflexivity|];
           split; [eexists; vm_compute; reflexivity|];
           eexists; split; [vm_compute; reflexivity|reflexivity]|]).
  apply List.Forall_nil.
Qed.

Section RenderingCompletes.
Variable py_repr : json -> string.
Variable textwrap_wrap : string -> Z -> list string.

Lemma block_lines_total (item : json) :
  well_formed item -> exists b, block_lines py_repr item = Return b.
Proof.
  intros [(control & s & Hc & _) [_ [(info & Hi) (v & Hv & _)]]].
  unfold block_lines. rewrite Hc. cbn. rewrite Hv. cbn. rewrite Hi. cbn. eauto.
Qed.

Lemma draw_body_total (controls : list json) :
  Forall well_formed controls ->
  forall st, exists st', draw_body py_repr textwrap_wrap controls st = Return st'.
Proof.
  induction 1 as [|item controls Hw _ IH]; intros st; [eexists; reflexivity|].
  cbn [draw_body]. destruct (block_lines_total item Hw) as [b ->]. cbn. apply IH.
Qed.

(** X7. On records of the expected shape the rendering returns a
    document: absent fields, [null] fields, identifiers with segments
    that are no numbers and scores that are no numbers do not raise. *)
Theorem render_completes (controls : list json) :
  Forall well_formed controls ->
  exists sorted doc,
    generate_pdf py_repr textwrap_wrap controls = (sorted, Return doc).
Proof.
  intros Hw.
  destruct (mapM_total identifier_key controls) as [keys Hk].
  { eapply Forall_impl; [exact Hw|]. apply well_formed_key. }
  destruct (sort_controls_spec controls keys Hk) as (sorted & Hs & Hp & _).
  assert (Hws : Forall well_formed sorted) by (now rewrite Hp).
  unfold generate_pdf. rewrite Hs. exists sorted. unfold render_sorted.
  destruct (company_name_total sorted Hws) as [company ->]. cbn.
  destruct (mapM_total formula_value sorted) as [scores Hsc].
  { eapply Forall_impl; [exact Hws|]. intros item (_ & _ & _ & v & Hv & _). eauto. }
  assert (Hscalar : Forall (fun v => scalar_score v = true) scores).
  { apply mapM_Return_Forall2 in Hsc. clear -Hsc Hws.
    induction Hsc as [|item v l k Hv _ IH]; constructor.
    - inversion Hws as [|? ? (_ & _ & _ & v' & Hv' & Hs) _]; subst. congruence.
    - apply IH. now inversion Hws. }
  rewrite (collect_values_scalar sorted scores [] Hsc Hscalar). cbn.
  destruct (draw_body_total sorted Hws
              (draw_header py_repr company (average (omap included_score scores))))
    as [st ->].
  cbn. eauto.
Qed.
End RenderingCompletes.

(** C6 at inputs the program can receive: only [ValueError] is caught
    around [float(val)], so a formula value that is a list, or an
    integer beyond the range of a float, ends the rendering with an
    exception, as does an identifier that is [null]; a string that does
    not parse is skipped. *)
Theorem render_raises_on_bad_data (py_repr : json -> string)
    (textwrap_wrap : string -> Z -> list string) :
  generate_pdf py_repr textwrap_wrap [record_with_score (JArr [JInt 1])]
  = ([record_with_score (JArr [JInt 1])], Raise TypeError)
  /\ generate_pdf py_repr textwrap_wrap [record_with_score (JInt (10 ^ 400))]
     = ([record_with_score (JInt (10 ^ 400))], Raise OverflowError)
  /\ generate_pdf py_repr textwrap_wrap [obj [("control", obj [("identifier", JNull)])]]
     = ([obj [("control", obj [("identifier", JNull)])]], Raise AttributeError)
  /\ (forall s rest values,
        float_of_str s = Raise ValueError ->
        collect_values (record_with_score (JStr s) :: rest) values
        = collect_values rest values).
Proof.
  split; [vm_compute; reflexivity|].
  split; [vm_compute; reflexivity|].
  split; [vm_compute; reflexivity|].
  intros s rest values Hs. cbn [collect_values].
  replace (formula_value (record_with_score (JStr s))) with (Return (JStr s))
    by (vm_compute; reflexivity).
  cbn. destruct (String.eqb s "0"); cbn; [reflexivity|].
  now rewrite Hs.
Qed.

(** ** The collector *)

Section CollectorFacts.
Variable post : request -> result response.
Variable org_id : string.

Lemma fetch_page_serves (page total : Z) (items controls : list json) :
  serves post org_id page items total ->
  fetch_page post org_id page controls
  = Return (controls ++ items, total <=? page + 1).
Proof.
  intros (code & data & Hpost & Hcode & Hc & Ht).
  unfold fetch_page. rewrite Hpost. cbn.
  unfold raise_for_status. cbn [status_code].
  replace ((400 <=? code) && (code <? 600)) with false by lia.
  cbn. rewrite Hc. cbn. rewrite Ht. reflexivity.
Qed.

Lemma fetch_page_fails (page : Z) (controls : list json) :
  fails post org_id page -> fetch_page post org_id page controls = Raise HTTPError.
Proof.
  intros (code & data & Hpost & Hcode).
  unfold fetch_page. rewrite Hpost. cbn.
  unfold raise_for_status. cbn [status_code].
  replace ((400 <=? code) && (code <? 600)) with true by lia.
  reflexivity.
Qed.

(** The turns that go on to a further page. *)
Lemma fetch_loop_continue (items : Z -> list json) (total : Z -> Z) (n : nat) :
  forall (fuel : nat) (page : Z) (controls : list json) (sent : list Z),
    (forall i, (i < n)%nat ->
               serves post org_id (page + Z.of_nat i)
                 (items (page + Z.of_nat i)) (total (page + Z.of_nat i))
               /\ page + Z.of_nat i + 1 < total (page + Z.of_nat i)) ->
    fetch_loop post (n + fuel) org_id page controls sent
    = fetch_loop post fuel org_id (page + Z.of_nat n)
        (controls ++ concat (map (fun i => items (page + Z.of_nat i)) (seq 0 n)))
        (sent ++ map (fun i => page + Z.of_nat i) (seq 0 n)).
Proof.
  induction n as [|n IH]; intros fuel page controls sent H.
  - cbn. now rewrite Z.add_0_r, !app_nil_r.
  - cbn [Nat.add fetch_loop].
    destruct (H 0%nat) as [Hs Hm]; [lia|]. cbn [Z.of_nat] in Hs, Hm.
    rewrite Z.add_0_r in Hs, Hm.
    rewrite (fetch_page_serves _ _ _ _ Hs).
    replace (total page <=? page + 1) with false by lia.
    rewrite IH.
    + replace (page + 1 + Z.of_nat n) with (page + Z.of_nat (S n)) by lia.
      assert (E1 : map (fun i => items (page + 1 + Z.of_nat i)) (seq 0 n)
                   = map (fun i => items (page + Z.of_nat i)) (seq 1 n)).
      { rewrite <- seq_shift, map_map. apply map_ext. intros i. f_equal. lia. }
      assert (E2 : map (fun i => page + 1 + Z.of_nat i) (seq 0 n)
                   = map (fun i => page + Z.of_nat i) (seq 1 n)).
      { rewrite <- seq_shift, map_map. apply map_ext. intros i. lia. }
      rewrite E1, E2. cbn [seq map concat Z.of_nat].
      rewrite Z.add_0_r, <- !app_assoc. reflexivity.
    + intros i Hi.
      replace (page + 1 + Z.of_nat i) with (page + Z.of_nat (S i)) by lia.
      apply H. lia.
Qed.

Lemma fetch_loop_from_zero (items : Z -> list json) (total : Z -> Z) (n fuel : nat) :
  (forall i, (i < n)%nat ->
             serves post org_id (Z.of_nat i) (items (Z.of_nat i)) (total (Z.of_nat i))
             /\ Z.of_nat i + 1 < total (Z.of_nat i)) ->
  fetch_controls post (n + fuel) org_id
  = fetch_loop post fuel org_id (Z.of_nat n) (concat (map items (pages n))) (pages n).
Proof.
  intros H. unfold fetch_controls, pages.
  rewrite (fetch_loop_continue items total n fuel 0 [] []); [|exact H].
  rewrite map_map. reflexivity.
Qed.

(** X17. A server whose total always stays ahead of the counter is
    asked for page after page: the loop has no bound of its own, and no
    number of turns ends the call. *)
Lemma fetch_unbounded (items : Z -> list json) (total : Z -> Z) :
  (forall i : nat,
     serves post org_id (Z.of_nat i) (items (Z.of_nat i)) (total (Z.of_nat i))
     /\ Z.of_nat i + 1 < total (Z.of_nat i)) ->
  forall fuel, fetch_controls post fuel org_id = None.
Proof.
  intros H fuel. rewrite <- (Nat.add_0_r fuel).
  rewrite (fetch_loop_from_zero items total); [reflexivity|].
  intros i _. apply H.
Qed.

Lemma pages_S (n : nat) : pages (S n) = pages n ++ [Z.of_nat n].
Proof. unfold pages. now rewrite seq_S, map_app. Qed.

(** C3. The collector asks for page 0, then page 1, and so on; after
    each answer it adds one to its page counter and goes on while the
    counter stays below the [totalPages] of that answer; it stops, with
    the records of all the pages it asked for, at the first answer whose
    [totalPages] the counter has reached or passed.  No request follows
    the last one. *)
Theorem pagination_stops (items : Z -> list json) (total : Z -> Z) (n fuel : nat)
    (Hserved : forall i, (i <= n)%nat ->
                 serves post org_id (Z.of_nat i) (items (Z.of_nat i)) (total (Z.of_nat i)))
    (Hmore : forall i, (i < n)%nat -> Z.of_nat i + 1 < total (Z.of_nat i))
    (Hlast : total (Z.of_nat n) <= Z.of_nat n + 1)
    (Hfuel : (n < fuel)%nat) :
  fetch_controls post fuel org_id
  = Some (pages (S n), Return (concat (map items (pages (S n))))).
Proof using Type.
  replace fuel with (n + S (fuel - S n))%nat by lia.
  rewrite (fetch_loop_from_zero items total).
  - cbn [fetch_loop].
    rewrite (fetch_page_serves _ _ _ _ (Hserved n (Nat.le_refl n))).
    replace (total (Z.of_nat n) <=? Z.of_nat n + 1) with true by lia.
    rewrite !pages_S, map_app, concat_app. cbn. now rewrite app_nil_r.
  - intros i Hi. split; [apply Hserved; lia|now apply Hmore].
Qed.

Lemma serves_goes_on (page total : Z) (items : list json) :
  serves post org_id page items total -> page + 1 < total ->
  goes_on post org_id page.
Proof.
  intros Hs Hm. exists items. intros controls.
  rewrite (fetch_page_serves _ _ _ _ Hs).
  now replace (total <=? page + 1) with false by lia.
Qed.

Lemma fetch_loop_goes_on (n : nat) :
  forall (fuel : nat) (page : Z) (controls : list json) (sent : list Z),
    (forall i, (i < n)%nat -> goes_on post org_id (page + Z.of_nat i)) ->
    exists controls',
      fetch_loop post (n + fuel) org_id page controls sent
      = fetch_loop post fuel org_id (page + Z.of_nat n) controls'
          (sent ++ map (fun i => page + Z.of_nat i) (seq 0 n)).
Proof.
  induction n as [|n IH]; intros fuel page controls sent H.
  - exists controls. cbn. now rewrite Z.add_0_r, app_nil_r.
  - destruct (H 0%nat) as [items Hi]; [lia|]. cbn [Z.of_nat] in Hi.
    rewrite Z.add_0_r in Hi.
    destruct (IH fuel (page + 1) (controls ++ items) (sent ++ [page]))
      as [controls' E].
    { intros i Hlt.
      replace (page + 1 + Z.of_nat i) with (page + Z.of_nat (S i)) by lia.
      apply H. lia. }
    exists controls'. cbn [Nat.add fetch_loop]. rewrite Hi, E.
    replace (page + 1 + Z.of_nat n) with (page + Z.of_nat (S n)) by lia.
    f_equal. rewrite <- app_assoc. f_equal.
    cbn [seq map Z.of_nat]. rewrite Z.add_0_r. f_equal.
    rewrite <- seq_shift, map_map. apply map_ext. intros i. lia.
Qed.

(** C5, as the program has it.  When a page request is answered with
    a status from 400 to 599, the statuses [raise_for_status] takes for
    errors, the collector raises at once: the call returns no list,
    whatever the earlier pages held, no further page is asked for, and
    the report is not made. *)
Theorem collection_fails_whole (py_repr : json -> string)
    (textwrap_wrap : string -> Z -> list string) (n fuel : nat)
    (Hearlier : forall i, (i < n)%nat -> goes_on post org_id (Z.of_nat i))
    (Hfails : fails post org_id (Z.of_nat n))
    (Hfuel : (n < fuel)%nat) :
  fetch_controls post fuel org_id = Some (pages (S n), Raise HTTPError)
  /\ download_report py_repr textwrap_wrap post fuel org_id = Some (Raise HTTPError).
Proof using Type.
  assert (H : fetch_controls post fuel org_id = Some (pages (S n), Raise HTTPError)).
  { replace fuel with (n + S (fuel - S n))%nat by lia.
    unfold fetch_controls.
    destruct (fetch_loop_goes_on n (S (fuel - S n)) 0 [] []) as [controls' ->].
    { intros i Hi. now apply Hearlier. }
    cbn [fetch_loop Z.add]. rewrite (fetch_page_fails _ _ Hfails).
    now rewrite pages_S. }
  split; [exact H|]. unfold download_report. now rewrite H.
Qed.
End CollectorFacts.

Lemma pagination_stops_witness :
  fetch_controls three_pages 5 "org" = Some ([0; 1; 2], Return [JInt 0; JInt 1; JInt 2]).
Proof.
  refine (pagination_stops three_pages "org" (fun p => [JInt p]) (fun _ => 3)
            2 5 _ _ _ _).
  - intros i _. exists 200, (list_to_map [("content", JArr [JInt (Z.of_nat i)]);
                                          ("totalPages", JInt 3)]).
    repeat split; try reflexivity. lia.
  - intros i Hi. lia.
  - vm_compute. discriminate.
  - lia.
Defined.

Lemma collection_fails_whole_witness :
  fetch_controls fails_on_third 5 "org" = Some ([0; 1; 2], Raise HTTPError)
  /\ download_report no_repr one_line fails_on_third 5 "org" = Some (Raise HTTPError).
Proof.
  refine (collection_fails_whole fails_on_third "org" no_repr one_line 2 5 _ _ _).
  - intros i Hi. apply (serves_goes_on _ _ _ 3 [JInt (Z.of_nat i)]); [|lia].
    exists 200, (list_to_map [("content", JArr [JInt (Z.of_nat i)]);
                              ("totalPages", JInt 3)]).
    repeat split; try reflexivity; [|lia].
    unfold fails_on_third. cbn [req_page].
    replace (Z.of_nat i <? 2) with true by lia. reflexivity.
  - exists 503, None. split; [reflexivity|lia].
  - lia.
Defined.

(** C5, as the specification words it, fails: a status that is no
    success and lies outside 400 to 599 is not taken for a failure.
    Answered with 304, 399 or 600 on the second page, the collector
    reads the body and returns the records of both pages; answered with
    404 it raises. *)
Lemma other_statuses_not_raised :
  fetch_controls (second_status 304) 5 "org"
  = Some ([0; 1], Return [record_with_identifier "2"; record_with_identifier "1"])
  /\ fetch_controls (second_status 399) 5 "org"
     = Some ([0; 1], Return [record_with_identifier "2"; record_with_identifier "1"])
  /\ fetch_controls (second_status 600) 5 "org"
     = Some ([0; 1], Return [record_with_identifier "2"; record_with_identifier "1"])
  /\ fetch_controls (second_status 404) 5 "org" = Some ([0; 1], Raise HTTPError).
Proof. repeat split; vm_compute; reflexivity. Qed.


(** ** A report of nine records *)

Lemma nine_records_rendered :
  generate_pdf no_repr one_line nine_records
  = (fst nine_records_pdf, Return (document nine_records_pdf)).
Proof. vm_compute. reflexivity. Qed.

(** The header and eight blocks fill the first page; the ninth block
    opens the second page at the top margin. *)
Example nine_records_page_break :
  document nine_records_pdf !! 52%nat
  = Some (DrawString 40 44 separator_rule)
  /\ document nine_records_pdf !! 53%nat = Some ShowPage
  /\ document nine_records_pdf !! 54%nat = Some (SetFont "Helvetica" 10)
  /\ document nine_records_pdf !! 55%nat = Some (DrawString 40 752 "Identifier    : 9").
Proof. repeat split; vm_compute; reflexivity. Qed.


Lemma page_break_per_line_witness :
  Forall above_margin (document nine_records_pdf).
Proof.
  exact (proj1 (page_break_per_line no_repr one_line nine_records _ _
                  nine_records_rendered)).
Defined.

(** * Further properties *)

(** ** The sort key *)

Lemma split_dot_length (s : string) : length (split_dot s) = S (count_dots s).
Proof.
  induction s as [|c s IH]; [reflexivity|].
  cbn [split_dot count_dots]. destruct (Ascii.eqb c ".").
  - cbn [length]. now rewrite IH.
  - destruct (split_dot s) as [|h t]; [discriminate IH|exact IH].
Qed.

(** X1. The key of a record has one entry for each segment of its
    identifier, that is one more than the identifier has dots: it is
    never the empty list, and an identifier without dot, the empty one
    included, has a key of one entry. *)
Theorem key_one_entry_per_segment (item : json) (s : string)
    (Hid : record_identifier item = Return (JStr s)) :
  exists key, identifier_key item = Return key
              /\ length key = S (count_dots s)
              /\ key <> [].
Proof.
  exists (key_of_identifier s). split; [now apply identifier_key_of_string|].
  assert (H : length (key_of_identifier s) = S (count_dots s)).
  { unfold key_of_identifier. now rewrite length_map, split_dot_length. }
  split; [exact H|]. intros E. rewrite E in H. discriminate.
Qed.

Lemma key_one_entry_per_segment_witness :
  exists key, identifier_key (record_with_identifier "3.2.10") = Return key
              /\ length key = 3%nat /\ key <> [].
Proof.
  apply (key_one_entry_per_segment (record_with_identifier "3.2.10") "3.2.10").
  vm_compute. reflexivity.
Defined.

Lemma key_of_dotted (ns : list N) :
  ns <> [] ->
  Forall (fun n => (numeral_digits (Z.of_N n) <= int_max_str_digits)%nat) ns ->
  key_of_identifier (dotted ns) = map Z.of_N ns.
Proof.
  induction ns as [|n ns IH]; [contradiction|]. intros _ Hns.
  inversion Hns as [|? ? Hn Hns']; subst.
  destruct ns as [|m ns].
  - cbn [dotted map]. unfold key_of_identifier. rewrite split_dot_Z.
    cbn [map]. now rewrite segment_value_Z.
  - change (dotted (n :: m :: ns))
      with (str_of_Z (Z.of_N n) +:+ String "." (dotted (m :: ns))).
    unfold key_of_identifier in *. rewrite split_dot_app, map_app, split_dot_Z.
    rewrite IH by (discriminate || assumption). cbn [map app].
    now rewrite segment_value_Z.
Qed.

(** X2. Reading an identifier undoes writing it, within the limit of
    [int]: the key of a record whose identifier is a list of natural
    numbers written in decimal, each in at most 4300 digits, and joined
    by dots is that list of numbers. *)
Theorem identifier_key_reads_dotted (item : json) (ns : list N)
    (Hns : ns <> [])
    (Hdigits : Forall (fun n => (numeral_digits (Z.of_N n) <= int_max_str_digits)%nat) ns)
    (Hid : record_identifier item = Return (JStr (dotted ns))) :
  identifier_key item = Return (map Z.of_N ns).
Proof.
  rewrite (identifier_key_of_string _ _ Hid). f_equal. now apply key_of_dotted.
Qed.

Lemma identifier_key_reads_dotted_witness :
  identifier_key (record_with_identifier "12.0.7") = Return [12; 0; 7].
Proof.
  apply (identifier_key_reads_dotted (record_with_identifier "12.0.7")
           [12%N; 0%N; 7%N]);
    [discriminate
    |repeat (apply List.Forall_cons; [vm_compute; lia|]); apply List.Forall_nil
    |vm_compute; reflexivity].
Defined.

Lemma list_ltb_proper_prefix (k k' : list Z) :
  k' <> [] -> list_ltb k (k ++ k') = true.
Proof.
  intros Hk. induction k as [|x k IH]; cbn.
  - destruct k'; [contradiction|reflexivity].
  - now rewrite Z.eqb_refl.
Qed.

(** X3. A parent comes before its children: the key of an identifier is
    smaller than the key of every identifier that extends it by a dot
    and further segments, whatever those are. *)
Theorem parent_before_child (s t : string) :
  list_ltb (key_of_identifier s) (key_of_identifier (s +:+ String "." t)) = true
  /\ list_ltb (key_of_identifier (s +:+ String "." t)) (key_of_identifier s) = false.
Proof.
  assert (H : list_ltb (key_of_identifier s)
                (key_of_identifier (s +:+ String "." t)) = true).
  { unfold key_of_identifier. rewrite split_dot_app, map_app.
    apply list_ltb_proper_prefix. intros E. apply map_eq_nil in E.
    now apply split_dot_nonempty in E. }
  split; [exact H|now apply list_ltb_asym].
Qed.

Lemma identifier_key_raises (item : json) (e : exn) :
  identifier_key item = Raise e -> e = AttributeError.
Proof.
  unfold identifier_key, get_or_empty.
  destruct item; cbn; try congruence.
  destruct (py_or _ empty_dict); cbn; try congruence.
  destruct (from_option id (JStr "") _); cbn; try congruence.
  rewrite segments_mapM. discriminate.
Qed.

(** X4. Whatever the record, [identifier_key] returns a key or raises
    [AttributeError]; a segment that is no number never makes it raise,
    the [ValueError] of [int] being caught. *)
Theorem identifier_key_outcomes (item : json) :
  (exists key, identifier_key item = Return key)
  \/ identifier_key item = Raise AttributeError.
Proof.
  destruct (identifier_key item) as [key|e] eqn:E; [eauto|].
  right. now rewrite (identifier_key_raises _ _ E).
Qed.

(** ** Sorting and rendering *)

Lemma sort_controls_unique_witness :
  [record_with_identifier "3.2"; record_with_identifier "3.10"]
  = fst (generate_pdf no_repr one_line
           [record_with_identifier "3.10"; record_with_identifier "3.2"]).
Proof.
  assert (K2 : identifier_key (record_with_identifier "3.2") = Return [3; 2])
    by (vm_compute; reflexivity).
  assert (K10 : identifier_key (record_with_identifier "3.10") = Return [3; 10])
    by (vm_compute; reflexivity).
  refine (sort_controls_unique
            [record_with_identifier "3.10"; record_with_identifier "3.2"]
            _ _ [[3; 10]; [3; 2]] _ _ _ _ _).
  - vm_compute. reflexivity.
  - vm_compute. reflexivity.
  - apply perm_swap.
  - apply SSorted_cons; [apply SSorted_cons; [apply SSorted_nil|apply List.Forall_nil]|].
    apply List.Forall_cons; [|apply List.Forall_nil].
    exists [3; 2], [3; 10]. rewrite K2, K10. repeat split.
  - intros k. rewrite !filter_cons, !filter_nil, K2, K10.
    destruct (decide (Return [3; 2] = Return k)) as [E2|E2],
      (decide (Return [3; 10] = Return k)) as [E10|E10];
      try reflexivity.
    rewrite <- E10 in E2. discriminate E2.
Defined.

Lemma render_completes_witness :
  exists sorted doc,
    generate_pdf no_repr one_line
      [ obj [];
        obj [("control", JNull); ("attributes", JNull); ("primaryEntity", JNull)];
        record_with_identifier "3.x";
        record_with_score (JStr "abc");
        obj [("attributes", obj [(formula_key, JArr [])])] ]
    = (sorted, Return doc).
Proof.
  exact (render_completes no_repr one_line _ well_formed_examples).
Defined.

Lemma mapM_raises {A B} (f : A -> result B) (l : list A) (e : exn) :
  mapM f l = Raise e -> exists x, In x l /\ f x = Raise e.
Proof.
  induction l as [|x l IH]; [discriminate|].
  rewrite mapM_result_cons. destruct (f x) as [y|e'] eqn:Ex.
  - destruct (mapM f l) as [k|e'']; [discriminate|].
    intros [= ->]. destruct (IH eq_refl) as (x' & Hin & Hx').
    exists x'. split; [now right|exact Hx'].
  - intros [= ->]. exists x. split; [now left|exact Ex].
Qed.

Lemma mapM_some_raises {A B} (f : A -> result B) (l : list A) (x : A) (e : exn) :
  In x l -> f x = Raise e -> exists e', mapM f l = Raise e'.
Proof.
  induction l as [|y l IH]; [contradiction|]. intros [->|Hin] Hx.
  - rewrite mapM_result_cons, Hx. eauto.
  - rewrite mapM_result_cons. destruct (f y); [|eauto].
    destruct (IH Hin Hx) as [e' ->]. eauto.
Qed.

(** X8. When the key of one record cannot be computed, whichever record
    it is, [generate_pdf] raises [AttributeError] and the caller's list
    is left in the order it had: nothing is sorted and nothing is drawn. *)
Theorem failed_key_leaves_list (py_repr : json -> string)
    (textwrap_wrap : string -> Z -> list string)
    (controls : list json) (item : json) (e : exn)
    (Hin : In item controls) (Hkey : identifier_key item = Raise e) :
  generate_pdf py_repr textwrap_wrap controls = (controls, Raise AttributeError).
Proof.
  destruct (mapM_some_raises identifier_key controls item e Hin Hkey) as [e' He'].
  destruct (mapM_raises _ _ _ He') as (x & _ & Hx).
  apply identifier_key_raises in Hx as ->.
  unfold generate_pdf, sort_controls. now rewrite He'.
Qed.

Lemma failed_key_leaves_list_witness :
  generate_pdf no_repr one_line
    [record_with_identifier "2"; obj [("control", obj [("identifier", JInt 1)])]]
  = ([record_with_identifier "2"; obj [("control", obj [("identifier", JInt 1)])]],
     Raise AttributeError).
Proof.
  apply (failed_key_leaves_list no_repr one_line _
           (obj [("control", obj [("identifier", JInt 1)])]) AttributeError).
  - right. left. reflexivity.
  - vm_compute. reflexivity.
Defined.

(** X9. Asked to render no record at all, [generate_pdf] returns a
    document of one page with the title for "Unknown Company" and the
    summary line "N/A", and no body. *)
Theorem generate_pdf_empty (py_repr : json -> string)
    (textwrap_wrap : string -> Z -> list string) :
  generate_pdf py_repr textwrap_wrap []
  = ([], Return [ SetFont "Helvetica-Bold" 14;
                  DrawString 40 752 "OneTrust Controls Summary - Unknown Company";
                  SetFont "Helvetica-Bold" 12;
                  DrawString 40 732 "Average Score of Applicable Controls: N/A";
                  SetFont "Helvetica" 10;
                  Save ]).
Proof. reflexivity. Qed.

Lemma company_name_raises (controls : list json) (e : exn) :
  company_name controls = Raise e -> e = AttributeError.
Proof.
  induction controls as [|item controls IH]; [discriminate|].
  cbn [company_name]. unfold get_or_empty.
  destruct item; cbn; try congruence.
  destruct (py_or (from_option id JNull (m !! "control")) empty_dict);
    cbn; try congruence.
  destruct (truthy _); [discriminate|].
  destruct (py_or (from_option id JNull (m !! "primaryEntity")) empty_dict);
    cbn; try congruence.
  destruct (truthy _); [discriminate|exact IH].
Qed.

Lemma company_name_truthy (controls : list json) (v : json) :
  company_name controls = Return v -> truthy v = true.
Proof.
  induction controls as [|item controls IH]; [now intros [= <-]|].
  cbn [company_name].
  destruct (get_or_empty item "control") as [control|]; [|discriminate]. cbn.
  destruct (dict_get control "orgGroupName" JNull) as [org|]; [|discriminate]. cbn.
  destruct (truthy org) eqn:Ho; [now intros [= <-]|].
  destruct (get_or_empty item "primaryEntity") as [primary|]; [|discriminate]. cbn.
  destruct (dict_get primary "name" JNull) as [name|]; [|discriminate]. cbn.
  destruct (truthy name) eqn:Hn; [now intros [= <-]|exact IH].
Qed.

(** X10. The company name of the title is never empty: the loop yields a
    value that is neither [None], nor an empty string, nor zero, nor an
    empty container, or else it raises [AttributeError], which happens
    when a [control] or a [primaryEntity] it has to look into is no
    dict. *)
Theorem company_name_never_empty (controls : list json) :
  (exists v, company_name controls = Return v /\ truthy v = true)
  \/ company_name controls = Raise AttributeError.
Proof.
  destruct (company_name controls) as [v|e] eqn:E.
  - left. exists v. split; [reflexivity|]. now apply company_name_truthy in E.
  - right. now rewrite (company_name_raises _ _ E).
Qed.

(** X11. Of the strings only "0" itself stands for "no score": every
    other string that reads as a number is counted, also when the number
    is zero, as for "0.0", "00" or "-0". *)
Theorem zero_score_counts (item : json) (s : string) (x : spec_float)
    (values : list spec_float) (rest : list json)
    (Hvalue : formula_value item = Return (JStr s))
    (Hs : s <> "0")
    (Hx : float_of_str s = Return x) :
  collect_values (item :: rest) values = collect_values rest (values ++ [x]).
Proof.
  cbn [collect_values]. rewrite Hvalue. cbn.
  destruct (String.eqb_spec s "0") as [->|_]; [contradiction|].
  cbn. now rewrite Hx.
Qed.

Lemma zero_score_counts_witness :
  collect_values [record_with_score (JStr "0.0"); record_with_score (JStr "4")] []
  = Return [S754_zero false; float_of_Z 4]
  /\ avg_text (average [S754_zero false; float_of_Z 4])
     = "Average Score of Applicable Controls: 2.00".
Proof.
  split; [|vm_compute; reflexivity].
  rewrite (zero_score_counts (record_with_score (JStr "0.0")) "0.0" (S754_zero false)).
  - vm_compute. reflexivity.
  - vm_compute. reflexivity.
  - discriminate.
  - vm_compute. reflexivity.
Defined.

(** X12. Of the entries of a record's formula list only the first is
    read: the formula value is the [value] of that entry, [None] if it
    has none, whatever entries follow it. *)
Theorem formula_value_first_entry (item first : json) (attrs : gmap string json)
    (others : list json)
    (Hattrs : get_or_empty item "attributes" = Return (JObj attrs))
    (Hformula : attrs !! formula_key = Some (JArr (first :: others))) :
  formula_value item = dict_get first "value" JNull.
Proof.
  unfold formula_value. rewrite Hattrs. cbn. rewrite Hformula. reflexivity.
Qed.

Lemma formula_value_first_entry_witness :
  formula_value
    (obj [("attributes",
           obj [(formula_key, JArr [obj [("value", JStr "7")];
                                    obj [("value", JStr "9")]])])])
  = Return (JStr "7").
Proof.
  rewrite (formula_value_first_entry _ (obj [("value", JStr "7")])
             (list_to_map [(formula_key, JArr [obj [("value", JStr "7")];
                                               obj [("value", JStr "9")]])])
             [obj [("value", JStr "9")]]).
  - vm_compute. reflexivity.
  - vm_compute. reflexivity.
  - vm_compute. reflexivity.
Defined.

(** ** The layout of the pages *)

Section LayoutFacts.
Variable py_repr : json -> string.
Variable textwrap_wrap : string -> Z -> list string.

(** What every turn of [draw_wrapped] keeps, the body keeps. *)
Lemma draw_body_invariant (P : layout -> Prop) (controls : list json)
    (st st' : layout) :
  (forall s line, P s -> P (draw_line s line)) ->
  draw_body py_repr textwrap_wrap controls st = Return st' ->
  P st -> P st'.
Proof.
  intros Hstep. revert st. induction controls as [|item controls IH];
    intros st; cbn [draw_body].
  - now intros [= <-].
  - destruct (block_lines py_repr item) as [lines|]; [|discriminate].
    cbn. intros Hb Hst. eapply IH; [exact Hb|]. clear Hb.
    revert st Hst. induction lines as [|text lines IHl]; intros st Hst;
      [exact Hst|].
    cbn [fold_left]. apply IHl. unfold draw_wrapped.
    generalize (textwrap_wrap text 100). intros phys. revert st Hst.
    induction phys as [|line phys IHp]; intros st Hst; [exact Hst|].
    cbn [fold_left]. now apply IHp, Hstep.
Qed.

Lemma generate_pdf_invariant (P : layout -> Prop) (controls sorted : list json)
    (doc : list canvas_op) :
  (forall s line, P s -> P (draw_line s line)) ->
  (forall company avg, P (draw_header py_repr company avg)) ->
  generate_pdf py_repr textwrap_wrap controls = (sorted, Return doc) ->
  exists st, P st /\ doc = canv st ++ [Save].
Proof.
  intros Hstep Hhead Hdoc. unfold generate_pdf in Hdoc.
  destruct (sort_controls controls) as [sorted'|]; [|discriminate].
  injection Hdoc as <- Hr. unfold render_sorted in Hr.
  destruct (company_name sorted') as [company|]; [|discriminate]. cbn in Hr.
  destruct (collect_values sorted' []) as [values|]; [|discriminate]. cbn in Hr.
  destruct (draw_body _ _ sorted' _) as [st|] eqn:Hb; [|discriminate].
  cbn in Hr. injection Hr as <-. exists st. split; [|reflexivity].
  eapply draw_body_invariant; [exact Hstep|exact Hb|apply Hhead].
Qed.

(** X13. Every text of a document is drawn at the left margin, above the
    bottom margin and at or below the top margin: the cursor never leaves
    the page, however many lines are drawn. *)
Theorem texts_inside_margins (controls sorted : list json) (doc : list canvas_op)
    (Hdoc : generate_pdf py_repr textwrap_wrap controls = (sorted, Return doc)) :
  Forall inside_margins doc.
Proof.
  destruct (generate_pdf_invariant
              (fun st => ypos st <= height - y_margin
                         /\ Forall inside_margins (canv st))
              controls sorted doc) as (st & [_ Hst] & ->).
  - intros s line [Hy Hs].
    destruct (Z.le_gt_cases (ypos s) y_margin) as [Hm|Hm].
    + rewrite (draw_line_at_margin _ _ Hm). cbn [canv ypos]. split.
      * unfold line_height. lia.
      * apply Forall_app. split; [exact Hs|].
        repeat constructor; unfold y_margin, height; cbn; lia.
    + rewrite (draw_line_above_margin _ _ Hm). cbn [canv ypos]. split.
      * unfold line_height. lia.
      * apply Forall_app. split; [exact Hs|].
        repeat constructor; [exact Hm|exact Hy].
  - intros company avg. cbn. split; [lia|].
    repeat constructor; unfold y_margin; cbn; lia.
  - exact Hdoc.
  - apply Forall_app. split; [exact Hst|repeat constructor].
Qed.

Lemma show_pages_app (a b : list canvas_op) :
  show_pages (a ++ b) = show_pages a + show_pages b.
Proof.
  induction a as [|op a IH]; [reflexivity|].
  destruct op; cbn [app show_pages]; rewrite IH; lia.
Qed.

Lemma texts_drawn_app (a b : list canvas_op) :
  texts_drawn (a ++ b) = texts_drawn a + texts_drawn b.
Proof. unfold texts_drawn. rewrite drawn_text_app, length_app. lia. Qed.

(** X14. The first page holds the title, the summary line and 48 lines
    of body, every further page 51 lines: a document of at most 48 body
    lines has no page break, and one of more has as many page breaks as
    it takes pages of 51 lines to hold the lines beyond the 48th. *)
Theorem page_breaks_by_line_count (controls sorted : list json)
    (doc : list canvas_op)
    (Hdoc : generate_pdf py_repr textwrap_wrap controls = (sorted, Return doc)) :
  0 <= texts_drawn doc - 2
  /\ (texts_drawn doc - 2 <= 48 -> show_pages doc = 0)
  /\ (48 < texts_drawn doc - 2 ->
      51 * (show_pages doc - 1) < texts_drawn doc - 2 - 48 <= 51 * show_pages doc).
Proof.
  destruct (generate_pdf_invariant
              (fun st =>
                 exists j,
                   (show_pages (canv st) = 0
                    /\ texts_drawn (canv st) - 2 = j
                    /\ 0 <= j <= 48 /\ ypos st = 702 - 14 * j)
                   \/ (1 <= show_pages (canv st)
                       /\ texts_drawn (canv st) - 2
                          = 48 + 51 * (show_pages (canv st) - 1) + j
                       /\ 1 <= j <= 51 /\ ypos st = 752 - 14 * j))
              controls sorted doc) as (st & [j Hj] & ->).
  - intros s line [j Hj].
    destruct (Z.le_gt_cases (ypos s) y_margin) as [Hm|Hm].
    + rewrite (draw_line_at_margin _ _ Hm). cbn [canv ypos].
      rewrite show_pages_app, texts_drawn_app.
      change (show_pages [ShowPage; SetFont "Helvetica" 10;
                          DrawString x_margin (height - y_margin) line]) with 1.
      change (texts_drawn [ShowPage; SetFont "Helvetica" 10;
                           DrawString x_margin (height - y_margin) line]) with 1.
      change (height - y_margin - line_height) with 738.
      unfold y_margin in Hm. exists 1. right. lia.
    + rewrite (draw_line_above_margin _ _ Hm). cbn [canv ypos].
      rewrite show_pages_app, texts_drawn_app.
      change (show_pages [DrawString x_margin (ypos s) line]) with 0.
      change (texts_drawn [DrawString x_margin (ypos s) line]) with 1.
      unfold y_margin in Hm. unfold line_height. exists (j + 1). lia.
  - intros company avg. exists 0. left.
    repeat split; try reflexivity; lia.
  - exact Hdoc.
  - rewrite show_pages_app, texts_drawn_app.
    change (show_pages [Save]) with 0. change (texts_drawn [Save]) with 0. lia.
Qed.

(** X15. No page of a document is left empty: a page break is made only
    when a line is about to be drawn, so every page break is followed at
    once by the setting of the body font and by a text at the top
    margin. *)
Theorem page_starts_with_line (controls sorted : list json)
    (doc : list canvas_op) (i : nat)
    (Hdoc : generate_pdf py_repr textwrap_wrap controls = (sorted, Return doc))
    (Hbreak : doc !! i = Some ShowPage) :
  doc !! S i = Some (SetFont "Helvetica" 10)
  /\ exists text,
       doc !! S (S i) = Some (DrawString x_margin (height - y_margin) text).
Proof.
  destruct (generate_pdf_invariant
              (fun st =>
                 forall k, canv st !! k = Some ShowPage ->
                   canv st !! S k = Some (SetFont "Helvetica" 10)
                   /\ exists text,
                        canv st !! S (S k)
                        = Some (DrawString x_margin (height - y_margin) text))
              controls sorted doc) as (st & Hst & ->).
  - intros s line Hs k.
    assert (Hold : forall new, canv s !! k = Some ShowPage ->
              (canv s ++ new) !! S k = Some (SetFont "Helvetica" 10)
              /\ exists text,
                   (canv s ++ new) !! S (S k)
                   = Some (DrawString x_margin (height - y_margin) text)).
    { intros new Hk. destruct (Hs k Hk) as [H1 [text H2]]. split.
      - now apply lookup_app_l_Some.
      - exists text. now apply lookup_app_l_Some. }
    destruct (Z.le_gt_cases (ypos s) y_margin) as [Hm|Hm].
    + rewrite (draw_line_at_margin _ _ Hm). cbn [canv].
      intros Hk. apply lookup_app_Some in Hk as [Hk|[Hlen Hk]];
        [now apply Hold|].
      assert (E : k = length (canv s)).
      { destruct (k - length (canv s))%nat as [|[|[|n]]] eqn:Ek;
          try discriminate Hk. lia. }
      subst k. split.
      * rewrite lookup_app_r by lia.
        now replace (S (length (canv s)) - length (canv s))%nat with 1%nat by lia.
      * exists line. rewrite lookup_app_r by lia.
        now replace (S (S (length (canv s))) - length (canv s))%nat
          with 2%nat by lia.
    + rewrite (draw_line_above_margin _ _ Hm). cbn [canv].
      intros Hk. apply lookup_app_Some in Hk as [Hk|[Hlen Hk]];
        [now apply Hold|].
      destruct (k - length (canv s))%nat as [|n]; discriminate Hk.
  - intros company avg k Hk. cbn in Hk.
    destruct k as [|[|[|[|[|k]]]]]; discriminate Hk.
  - exact Hdoc.
  - apply lookup_app_Some in Hbreak as [Hk|[Hlen Hk]].
    + destruct (Hst i Hk) as [H1 [text H2]]. split.
      * now apply lookup_app_l_Some.
      * exists text. now apply lookup_app_l_Some.
    + destruct (i - length (canv st))%nat as [|n]; discriminate Hk.
Qed.

(** X16. Whatever the records, a document opens with the title in
    Helvetica-Bold 14 at the top margin, the summary line in
    Helvetica-Bold 12 twenty points below, and the body font; it closes
    with the saving of the canvas, made once. *)
Theorem document_header_and_end (controls sorted : list json)
    (doc : list canvas_op)
    (Hdoc : generate_pdf py_repr textwrap_wrap controls = (sorted, Return doc)) :
  exists company avg body,
    doc = [ SetFont "Helvetica-Bold" 14;
            DrawString x_margin (height - y_margin) (title_text py_repr company);
            SetFont "Helvetica-Bold" 12;
            DrawString x_margin (height - y_margin - 20) (avg_text avg);
            SetFont "Helvetica" 10 ]
          ++ body ++ [Save]
    /\ ~ In Save body.
Proof.
  destruct (generate_pdf_invariant
              (fun st =>
                 exists company avg body,
                   canv st = canv (draw_header py_repr company avg) ++ body
                   /\ ~ In Save body)
              controls sorted doc) as (st & (company & avg & body & E & Hb) & ->).
  - intros s line (company & avg & body & E & Hb).
    destruct (Z.le_gt_cases (ypos s) y_margin) as [Hm|Hm].
    + rewrite (draw_line_at_margin _ _ Hm). cbn [canv].
      exists company, avg,
        (body ++ [ShowPage; SetFont "Helvetica" 10;
                  DrawString x_margin (height - y_margin) line]).
      rewrite E, <- app_assoc. split; [reflexivity|].
      rewrite in_app_iff. intros [H|H]; [now apply Hb|].
      cbn in H. destruct H as [H|[H|[H|[]]]]; discriminate H.
    + rewrite (draw_line_above_margin _ _ Hm). cbn [canv].
      exists company, avg, (body ++ [DrawString x_margin (ypos s) line]).
      rewrite E, <- app_assoc. split; [reflexivity|].
      rewrite in_app_iff. intros [H|H]; [now apply Hb|].
      cbn in H. destruct H as [H|[]]; discriminate H.
  - intros company avg. exists company, avg, []. split; [now rewrite app_nil_r|].
    intros [].
  - exact Hdoc.
  - exists company, avg, body. split; [|exact Hb].
    rewrite E, <- app_assoc. reflexivity.
Qed.
End LayoutFacts.

Lemma page_breaks_by_line_count_witness :
  show_pages (document nine_records_pdf) = 1
  /\ texts_drawn (document nine_records_pdf) - 2 = 54.
Proof.
  destruct (page_breaks_by_line_count no_repr one_line nine_records _ _
              nine_records_rendered) as (_ & _ & H).
  assert (E : texts_drawn (document nine_records_pdf) - 2 = 54)
    by (vm_compute; reflexivity).
  split; [|exact E]. rewrite E in H. lia.
Defined.

Lemma page_starts_with_line_witness :
  document nine_records_pdf !! 54%nat = Some (SetFont "Helvetica" 10).
Proof.
  refine (proj1 (page_starts_with_line no_repr one_line nine_records _ _ 53%nat
                   nine_records_rendered _)).
  vm_compute. reflexivity.
Defined.

Lemma document_header_and_end_witness :
  exists company avg body,
    document nine_records_pdf
    = [ SetFont "Helvetica-Bold" 14;
        DrawString x_margin (height - y_margin) (title_text no_repr company);
        SetFont "Helvetica-Bold" 12;
        DrawString x_margin (height - y_margin - 20) (avg_text avg);
        SetFont "Helvetica" 10 ]
      ++ body ++ [Save]
    /\ ~ In Save body.
Proof.
  exact (document_header_and_end no_repr one_line nine_records _ _
           nine_records_rendered).
Defined.

Lemma texts_inside_margins_witness :
  Forall inside_margins (document nine_records_pdf).
Proof.
  exact (texts_inside_margins no_repr one_line nine_records _ _
           nine_records_rendered).
Defined.

(** ** The collector, further *)

Lemma fetch_unbounded_witness : fetch_controls ever_more 1000 "org" = None.
Proof.
  apply (fetch_unbounded ever_more "org" (fun _ => []) (fun p => p + 2)).
  intros i. split; [|lia].
  exists 200, (list_to_map [("content", JArr []);
                            ("totalPages", JInt (Z.of_nat i + 2))]).
  repeat split; try reflexivity. lia.
Defined.

Section CollectorMore.
Variable post : request -> result response.
Variable org_id : string.

(** X18. The loop always makes a first request, and an answer without
    [totalPages] counts as the only page: the call makes that one
    request and returns the records of the answer, none when the answer
    has no [content] either. *)
Theorem one_request_without_total (fuel : nat) (code : Z)
    (data : gmap string json) (items : list json)
    (Hpost : post {| req_page := 0; req_size := 50; req_org_id := org_id |}
             = Return {| status_code := code; body := Some (JObj data) |})
    (Hcode : code < 400 \/ 600 <= code)
    (Htotal : data !! "totalPages" = None)
    (Hcontent : data !! "content" = Some (JArr items)
                \/ (data !! "content" = None /\ items = [])) :
  fetch_controls post (S fuel) org_id = Some ([0], Return items).
Proof using Type.
  unfold fetch_controls. cbn [fetch_loop]. unfold fetch_page.
  rewrite Hpost. cbn. unfold raise_for_status. cbn [status_code].
  replace ((400 <=? code) && (code <? 600)) with false by lia. cbn.
  rewrite Htotal. destruct Hcontent as [->|[-> ->]]; reflexivity.
Qed.

Lemma fetch_page_raises (page : Z) (e : exn) (controls : list json) :
  turn_raises post org_id page e -> fetch_page post org_id page controls = Raise e.
Proof.
  unfold fetch_page.
  intros [H|[(code & Hcode & H & ->)|(code & data & Hcode & H & Hc & Ht & ->)]];
    rewrite H; [reflexivity| |]; cbn;
    unfold raise_for_status; cbn [status_code];
    replace ((400 <=? code) && (code <? 600)) with false by lia;
    [reflexivity|].
  cbn. rewrite Ht. destruct Hc as [->|[l ->]]; reflexivity.
Qed.

(** X19. Whatever makes a turn of the loop raise, a failed connection,
    an answer that is no JSON or a [totalPages] that is [null], the call
    ends there with that exception: the records of the earlier pages
    are dropped, no further page is asked for and no report is made. *)
Theorem collection_error_propagates (py_repr : json -> string)
    (textwrap_wrap : string -> Z -> list string) (n fuel : nat) (e : exn)
    (Hearlier : forall i, (i < n)%nat -> goes_on post org_id (Z.of_nat i))
    (Hraises : turn_raises post org_id (Z.of_nat n) e)
    (Hfuel : (n < fuel)%nat) :
  fetch_controls post fuel org_id = Some (pages (S n), Raise e)
  /\ download_report py_repr textwrap_wrap post fuel org_id = Some (Raise e).
Proof using Type.
  assert (H : fetch_controls post fuel org_id = Some (pages (S n), Raise e)).
  { replace fuel with (n + S (fuel - S n))%nat by lia.
    unfold fetch_controls.
    destruct (fetch_loop_goes_on post org_id n (S (fuel - S n)) 0 [] [])
      as [controls' ->].
    { intros i Hi. now apply Hearlier. }
    cbn [fetch_loop Z.add]. rewrite (fetch_page_raises _ _ _ Hraises).
    now rewrite pages_S. }
  split; [exact H|]. unfold download_report. now rewrite H.
Qed.

(** X20. The report is made of the records of all the pages asked for,
    in the order of the pages: [download_report] renders the
    concatenation of the page contents, so that records of equal key
    appear in the order the server sent them. *)
Theorem report_of_all_pages (py_repr : json -> string)
    (textwrap_wrap : string -> Z -> list string)
    (items : Z -> list json) (total : Z -> Z) (n fuel : nat)
    (Hserved : forall i, (i <= n)%nat ->
                 serves post org_id (Z.of_nat i) (items (Z.of_nat i)) (total (Z.of_nat i)))
    (Hmore : forall i, (i < n)%nat -> Z.of_nat i + 1 < total (Z.of_nat i))
    (Hlast : total (Z.of_nat n) <= Z.of_nat n + 1)
    (Hfuel : (n < fuel)%nat) :
  download_report py_repr textwrap_wrap post fuel org_id
  = Some (snd (generate_pdf py_repr textwrap_wrap
                 (concat (map items (pages (S n)))))).
Proof using Type.
  unfold download_report.
  replace fuel with (n + S (fuel - S n))%nat by lia.
  rewrite (fetch_loop_from_zero post org_id items total).
  - cbn [fetch_loop].
    rewrite (fetch_page_serves _ _ _ _ _ _ (Hserved n (Nat.le_refl n))).
    replace (total (Z.of_nat n) <=? Z.of_nat n + 1) with true by lia.
    rewrite !pages_S, map_app, concat_app. cbn. now rewrite app_nil_r.
  - intros i Hi. split; [apply Hserved; lia|now apply Hmore].
Qed.
End CollectorMore.

Lemma one_request_without_total_witness :
  fetch_controls bare_answer 3 "org" = Some ([0], Return []).
Proof.
  apply (one_request_without_total bare_answer "org" 2 200 ∅ []).
  - reflexivity.
  - lia.
  - reflexivity.
  - right. split; reflexivity.
Defined.

Lemma two_pages_serves (i : nat) :
  serves two_pages "org" (Z.of_nat i)
    [record_with_identifier (if Z.of_nat i =? 0 then "2" else "1")] 2.
Proof.
  exists 200,
    (list_to_map [("content",
                   JArr [record_with_identifier
                           (if Z.of_nat i =? 0 then "2" else "1")]);
                  ("totalPages", JInt 2)]).
  repeat split; try reflexivity. lia.
Qed.

Lemma collection_error_propagates_witness :
  fetch_controls garbled_on_second 5 "org" = Some ([0; 1], Raise JSONDecodeError)
  /\ download_report no_repr one_line garbled_on_second 5 "org"
     = Some (Raise JSONDecodeError).
Proof.
  refine (collection_error_propagates garbled_on_second "org" no_repr one_line
            1 5 JSONDecodeError _ _ _).
  - intros i Hi. assert (i = 0%nat) as -> by lia.
    apply (serves_goes_on _ _ _ 2 [record_with_identifier "2"]); [|lia].
    exact (two_pages_serves 0).
  - right. left. exists 200. repeat split. lia.
  - lia.
Defined.

Lemma report_of_all_pages_witness :
  download_report no_repr one_line two_pages 5 "org"
  = Some (snd (generate_pdf no_repr one_line
                 [record_with_identifier "2"; record_with_identifier "1"])).
Proof.
  refine (report_of_all_pages two_pages "org" no_repr one_line
            (fun p => [record_with_identifier (if p =? 0 then "2" else "1")])
            (fun _ => 2) 1 5 _ _ _ _).
  - intros i _. apply two_pages_serves.
  - intros i Hi. lia.
  - vm_compute. discriminate.
  - lia.
Defined.

(** ** Records without a score, and organisations without records *)

(** X21. A record whose [attributes] hold no formula entry, a [null] one
    or an empty list has no formula value: the value is [None], the
    record is left out of the average, and its [Value] line reads
    "N/A". *)
Theorem no_formula_no_score (py_repr : json -> string) (item : json)
    (attrs : gmap string json) (values : list spec_float) (rest : list json)
    (lines : list string)
    (Hattrs : get_or_empty item "attributes" = Return (JObj attrs))
    (Hformula : attrs !! formula_key = None
                \/ attrs !! formula_key = Some JNull
                \/ attrs !! formula_key = Some (JArr []))
    (Hlines : block_lines py_repr item = Return lines) :
  formula_value item = Return JNull
  /\ collect_values (item :: rest) values = collect_values rest values
  /\ lines !! 3%nat = Some "Value         : N/A".
Proof.
  assert (Hv : formula_value item = Return JNull).
  { unfold formula_value. rewrite Hattrs. cbn.
    destruct Hformula as [->|[->| ->]]; reflexivity. }
  split; [exact Hv|]. split.
  - cbn [collect_values]. now rewrite Hv.
  - destruct (block_lines_shape py_repr item lines Hlines)
      as (control & info & raw & _ & _ & Hraw & ->).
    rewrite Hv in Hraw. injection Hraw as <-. reflexivity.
Qed.

Lemma no_formula_no_score_witness :
  formula_value (record_with_identifier "1") = Return JNull
  /\ collect_values [record_with_identifier "1"] [] = Return [].
Proof.
  destruct (no_formula_no_score no_repr (record_with_identifier "1") ∅ [] []
              [ "Identifier    : 1"; "Name          : N/A";
                "Description   : N/A"; "Value         : N/A";
                "Effectiveness : N/A"; separator_rule ])
    as (H1 & H2 & _).
  - vm_compute. reflexivity.
  - left. reflexivity.
  - vm_compute. reflexivity.
  - split; [exact H1|exact H2].
Defined.

Lemma collect_values_length (controls : list json) :
  forall values out,
    collect_values controls values = Return out ->
    (length values <= length out <= length values + length controls)%nat.
Proof.
  induction controls as [|item controls IH]; intros values out; cbn [collect_values].
  - intros [= <-]. cbn. lia.
  - destruct (formula_value item) as [val|]; [|discriminate]. cbn.
    destruct (in_none_str0_0 val); cbn.
    + intros H. apply IH in H. cbn. lia.
    + destruct (py_float val) as [x|e]; cbn.
      * intros H. apply IH in H. rewrite length_app in H. cbn in *. lia.
      * destruct (exn_eqb e ValueError); [|discriminate].
        cbn. intros H. apply IH in H. cbn. lia.
Qed.

(** X22. A record adds at most one value to the aggregation: the count
    the sum is divided by never exceeds the number of records. *)
Theorem at_most_one_value_per_record (controls : list json)
    (values : list spec_float)
    (Hvalues : collect_values controls [] = Return values) :
  (length values <= length controls)%nat.
Proof.
  apply collect_values_length in Hvalues. cbn in Hvalues. lia.
Qed.

Lemma at_most_one_value_per_record_witness :
  (length [float_of_Z 5; float_of_Z 15] <= length five_scores)%nat.
Proof.
  apply (at_most_one_value_per_record five_scores [float_of_Z 5; float_of_Z 15]).
  vm_compute. reflexivity.
Defined.

(** X23. For an organisation the server holds no record of, an empty
    [content] on a single page, the report is made all the same: one
    page with the title for "Unknown Company" and the summary line
    "N/A". *)
Theorem report_without_records (py_repr : json -> string)
    (textwrap_wrap : string -> Z -> list string)
    (post : request -> result response) (org_id : string)
    (fuel : nat) (code total : Z) (data : gmap string json)
    (Hpost : post {| req_page := 0; req_size := 50; req_org_id := org_id |}
             = Return {| status_code := code; body := Some (JObj data) |})
    (Hcode : code < 400 \/ 600 <= code)
    (Hcontent : data !! "content" = Some (JArr []))
    (Htotal : data !! "totalPages" = Some (JInt total))
    (Hone : total <= 1) :
  download_report py_repr textwrap_wrap post (S fuel) org_id
  = Some (Return [ SetFont "Helvetica-Bold" 14;
                   DrawString 40 752 "OneTrust Controls Summary - Unknown Company";
                   SetFont "Helvetica-Bold" 12;
                   DrawString 40 732 "Average Score of Applicable Controls: N/A";
                   SetFont "Helvetica" 10;
                   Save ]).
Proof.
  unfold download_report, fetch_controls. cbn [fetch_loop].
  rewrite (fetch_page_serves post org_id 0 total [] []).
  - replace (total <=? 0 + 1) with true by lia. reflexivity.
  - exists code, data. repeat split; assumption.
Qed.

Lemma report_without_records_witness :
  exists doc,
    download_report no_repr one_line
      (fun _ => Return {| status_code := 200;
                          body := Some (obj [("content", JArr []);
                                             ("totalPages", JInt 0)]) |})
      1 "org"
    = Some (Return doc)
    /\ length doc = 6%nat.
Proof.
  eexists. split.
  - apply (report_without_records no_repr one_line _ "org" 0 200 0
             (list_to_map [("content", JArr []); ("totalPages", JInt 0)]));
      try reflexivity; lia.
  - reflexivity.
Defined.
